(** * solacedownload: the file-record lifecycle of [server.js]

    A shallow embedding of the Express handlers of [server.js]: the
    in-memory record array [fileDatabase], its JSON mirror on disk written
    by [saveDatabase], the blob directory [uploads/], and the five routes
    [POST /api/upload], [GET /d/:id], [GET /api/download/:id],
    [GET /api/files] and [DELETE /api/files/:id].

    Modelling conventions.
    - JavaScript strings are byte strings (the UTF-8 encoding of the text).
    - Counters, sizes and HTTP status codes are integers in [Z]; the
      JavaScript numbers involved are integers far below 2^53, where [++]
      and [+] are exact.
    - Instants ([Date] objects, ISO date strings, [Date.now()]) are their
      number of milliseconds since the epoch, the value [new Date(x)]
      compares.
    - The file system is a finite map from paths to contents.  Reading a
      missing file throws; writes and unlinks succeed.
    - A handler is a computation over the server's state that returns the
      response or throws; state changes made before a throw persist, as in
      JavaScript. *)

From Stdlib Require Import ZArith String Ascii.
From stdpp Require Import base option list strings gmap.

(** ** Data model *)

(** The object literal built at lines 69-78. *)
Record FileRecord : Type := mkFileRecord {
  id : string;
  filename : string;
  storedName : string;
  size : Z;
  mimeType : string;
  uploadDate : Z;
  downloadCount : Z;
  expiresAt : Z
}.

(** [req.file] as multer's disk storage hands it to the upload handler. *)
Record MulterFile : Type := mkMulterFile {
  originalname : string;
  file_filename : string;
  file_size : Z;
  mimetype : string
}.

(** What [JSON.parse] can return: the record array [saveDatabase] writes, or
    any other well-formed JSON value. *)
Inductive js_value : Type :=
| JRecords (records : list FileRecord)
| JOther (text : string).

Inductive js_error : Type :=
| ReferenceError (name : string)
| TypeError (msg : string)
| SyntaxError (msg : string)
| ENOENT (path : string).

(** [error.message] *)
Definition message (e : js_error) : string :=
  match e with
  | ReferenceError name => name +:+ " is not defined"
  | TypeError msg => msg
  | SyntaxError msg => msg
  | ENOENT path => "ENOENT: no such file or directory, open '" +:+ path +:+ "'"
  end.

Inductive outcome (A : Type) : Type :=
| Return (a : A)
| Throw (e : js_error).
Arguments Return {A} a.
Arguments Throw {A} e.

(** ** Server state *)

Record world : Type := mkWorld {
  fileDatabase : list FileRecord;
  disk : gmap string string;
  console : list (string * js_error)
}.

Definition set_fileDatabase (db : list FileRecord) (w : world) : world :=
  mkWorld db (disk w) (console w).

Definition set_disk (d : gmap string string) (w : world) : world :=
  mkWorld (fileDatabase w) d (console w).

(** ** Computations that may throw *)

Definition M (A : Type) : Type := world → outcome A * world.

Definition ret {A} (a : A) : M A := λ w, (Return a, w).

Definition bind {A B} (c : M A) (k : A → M B) : M B :=
  λ w, match c w with
       | (Return a, w') => k a w'
       | (Throw e, w') => (Throw e, w')
       end.

Definition throw {A} (e : js_error) : M A := λ w, (Throw e, w).

(** [try { body } catch (error) { handler }] *)
Definition try_catch {A} (body : M A) (handler : js_error → M A) : M A :=
  λ w, match body w with
       | (Return a, w') => (Return a, w')
       | (Throw e, w') => handler e w'
       end.

Definition gets {A} (f : world → A) : M A := λ w, (Return (f w), w).

Definition modify (f : world → world) : M unit := λ w, (Return tt, f w).

Declare Scope js_scope.
Delimit Scope js_scope with js.
Notation "'let!' x ':=' c 'in' k" := (bind c (λ x, k))
  (at level 10, x pattern, c at level 100, k at level 200) : js_scope.
Notation "c ';;;' k" := (bind c (λ _, k))
  (at level 100, k at level 200, right associativity) : js_scope.

(** [console.error(label, error)] *)
Definition console_error (label : string) (e : js_error) : M unit :=
  modify (λ w, mkWorld (fileDatabase w) (disk w) (console w ++ [(label, e)])).

(** ** Responses *)

Inductive header_value : Type :=
| HString (s : string)
| HNumber (n : Z).

(** One entry of the [GET /api/files] listing. *)
Record FileListing : Type := mkFileListing {
  l_id : string;
  l_filename : string;
  l_size : Z;
  l_uploadDate : Z;
  l_downloadCount : Z;
  l_expiresAt : Z;
  l_downloadUrl : string
}.

(** The bodies the handlers send.  An HTML page is kept as the values
    interpolated into its template, in the order the template evaluates
    them. *)
Inductive body : Type :=
| NotFoundPage
| ExpiredPage
| LandingPage (title_filename info_filename size_text date_text : string)
    (downloads : Z) (link_id button_filename : string)
| Text (s : string)
| JsonError (error : string) (details : option string)
| JsonUploaded (file : FileRecord) (downloadUrl directDownloadUrl : string)
| JsonFiles (count : nat) (files : list FileListing)
| JsonDeleted
| FileStream (content : string).

Record response : Type := mkResponse {
  status : Z;
  headers : list (string * header_value);
  resp_body : body
}.

(** [res.status(code).send(...)] and [res.status(code).json(...)]; a bare
    [res.send] or [res.json] answers 200. *)
Definition respond (code : Z) (b : body) : response := mkResponse code [] b.

(** ** Strings *)

Definition dquote : string := String (ascii_of_nat 34) EmptyString.

Definition hex_digit (n : nat) : ascii :=
  if (n <? 10)%nat then ascii_of_nat (48 + n) else ascii_of_nat (55 + n).

(** The characters [encodeURIComponent] leaves alone:
    [A-Z a-z 0-9 - _ . ! ~ * ' ( )]. *)
Definition is_unreserved (c : ascii) : bool :=
  let n := nat_of_ascii c in
  ((65 <=? n) && (n <=? 90) || (97 <=? n) && (n <=? 122) || (48 <=? n) && (n <=? 57)
   || bool_decide (n ∈ [45; 95; 46; 33; 126; 42; 39; 40; 41]))%nat.

Fixpoint encodeURIComponent (s : string) : string :=
  match s with
  | EmptyString => EmptyString
  | String c rest =>
      if is_unreserved c then String c (encodeURIComponent rest)
      else
        let n := nat_of_ascii c in
        String "%" (String (hex_digit (n / 16)) (String (hex_digit (n mod 16))
          (encodeURIComponent rest)))
  end.

(** [s.endsWith(suffix)] *)
Definition endsWith (s suffix : string) : bool :=
  let n := String.length s in
  let m := String.length suffix in
  if (m <=? n)%nat then String.eqb (substring (n - m) m s) suffix else false.

(** ** Requests

    The routes registered on [app], with what each request carries and
    what the platform supplies while it is served (generated ids, clock
    readings). *)

(** A part of a multipart body that carries a file: the name of its form
    field, the file name and the content type its headers give, if any,
    and its bytes. *)
Record FilePart : Type := mkFilePart {
  part_fieldname : string;
  part_filename : option string;
  part_type : option string;
  part_content : string
}.

Inductive request : Type :=
| PostUpload (part : list FilePart) (protocol host uniqueId new_id : string)
    (t_upload t_now : Z)
| GetLanding (req_id : string) (now : Z)
| GetDownload (req_id : string)
| GetFiles (protocol host : string)
| DeleteFile (req_id : string).

(** What [upload.single('file')] passes on: [next()] with [req.file] set or
    left undefined, or [next(err)] with a multer error code, which Express
    answers with a 500 of its own. *)
Inductive multer_result : Type :=
| Next (file : option MulterFile)
| NextError (code : string).

(** How a request ends: a response sent by the route, an exception the
    route let escape, or a multer error handed to Express. *)
Inductive reply : Type :=
| Responded (r : response)
| Uncaught (e : js_error)
| Refused (code : string).

Definition to_reply (o : outcome response) : reply :=
  match o with
  | Return r => Responded r
  | Throw e => Uncaught e
  end.

(** A header value made of printable ASCII characters, which
    [res.setHeader] takes as it is. *)
Definition header_text (s : string) : Prop :=
  Forall (λ c, (32 ≤ nat_of_ascii c ≤ 126)%nat) (list_ascii_of_string s).

(** ** A concrete platform and store

    Used to run the handlers on explicit requests. *)

Definition sample_stringify (db : list FileRecord) : string :=
  "[" +:+ String.concat "," (map id db) +:+ "]".

Definition sample_toLocaleDateString (t : Z) : string := "1/1/1970".

(** A 10-byte text file [a.txt] as multer stores it. *)
Definition a_txt : MulterFile := mkMulterFile "a.txt" "xK3.txt" 10 "text/plain".

(** Its record, created at instant 1000 under the id [abc]. *)
Definition rec_abc : FileRecord :=
  mkFileRecord "abc" "a.txt" "xK3.txt" 10 "text/plain" 1000 0 (1000 + 604800000).

Definition rec_other : FileRecord :=
  mkFileRecord "zzz" "b.png" "Qw9.png" 2048 "image/png" 2000 3 (2000 + 604800000).

(** A parser that reads the documents the runs below put on disk and
    rejects everything else. *)
Definition sample_parse (data : string) : outcome js_value :=
  if decide (data = "[]") then Return (JRecords [])
  else if decide (data = sample_stringify [rec_other; rec_abc])
       then Return (JRecords [rec_other; rec_abc])
  else if decide (data = "{}") then Return (JOther data)
  else Throw (SyntaxError "Unexpected token in JSON").

Definition empty_world : world := mkWorld [] ∅ [].

(** A store of two records whose blobs are on disk. *)
Definition world_two : world :=
  mkWorld [rec_other; rec_abc]
    (<["/app/uploads/xK3.txt" := "0123456789"]>
       (<["/app/uploads/Qw9.png" := "PNG"]> ∅))
    [].

(** The same store after the blob of [abc] was removed behind the server's
    back. *)
Definition world_blob_lost : world :=
  mkWorld [rec_other; rec_abc] (<["/app/uploads/Qw9.png" := "PNG"]> ∅) [].

(** The suffix from the last dot on, which is what [path.extname] returns
    for a name such as [a.txt]. *)
Fixpoint sample_extname (name : string) : string :=
  match name with
  | EmptyString => EmptyString
  | String c rest =>
      match sample_extname rest with
      | EmptyString => if Ascii.eqb c "." then name else EmptyString
      | ext => ext
      end
  end.

(** A parser that reads the document written after [a.txt] is uploaded to
    an empty store. *)
Definition sample_parse_abc (data : string) : outcome js_value :=
  if decide (data = "[abc]") then Return (JRecords [rec_abc])
  else Throw (SyntaxError "Unexpected token in JSON").

(** What multer's parser reports for a file name that has no directory
    and only ASCII characters: the name itself, or nothing for [.] and
    [..]. *)
Definition sample_busboy_filename (name : string) : string :=
  if decide (name = ".") then EmptyString
  else if decide (name = "..") then EmptyString
  else name.

(** What it reports for a content type already of the form type/subtype,
    and for a part without one. *)
Definition sample_busboy_mimetype (type : option string) : string :=
  default "text/plain" type.

(** The file [a.txt] as it arrives in the request, in the field [file]. *)
Definition part_a : FilePart :=
  mkFilePart "file" (Some "a.txt") (Some "text/plain") "0123456789".

(** The same file sent in a field the route does not expect. *)
Definition part_stray : FilePart :=
  mkFilePart "avatar" (Some "a.txt") (Some "text/plain") "0123456789".

(** A part whose file name is [.]. *)
Definition part_dot : FilePart :=
  mkFilePart "file" (Some ".") (Some "text/plain") "0123456789".

(** Its upload, for which the platform generates [xK3] and [abc] and reads
    the instant 1000 twice. *)
Definition upload_a : request :=
  PostUpload [part_a] "http" "localhost:3000" "xK3" "abc" 1000 1000.

(** The store of two records with its document on disk. *)
Definition world_saved : world :=
  mkWorld [rec_other; rec_abc]
    (<["/app/database.json" := "[zzz,abc]"]> (disk world_two))
    [].

(** ** The server *)

Section Server.

(** [__dirname], [JSON.stringify(fileDatabase, null, 2)], [JSON.parse] and
    [Date.prototype.toLocaleDateString] are taken from the platform. *)
Variable dirname : string.
Variable JSON_stringify : list FileRecord → string.
Variable JSON_parse : string → outcome js_value.
Variable toLocaleDateString : Z → string.

(** [path.join(a, b)] on the paths the server builds: a directory and a
    name without separators. *)
Definition path_join (a b : string) : string := a +:+ "/" +:+ b.

Definition UPLOADS_DIR : string := path_join dirname "uploads".
Definition DATABASE_JSON : string := path_join dirname "database.json".

(** [fs.readFileSync(p, 'utf8')] *)
Definition readFileSync (p : string) (d : gmap string string) : outcome string :=
  match d !! p with
  | Some data => Return data
  | None => Throw (ENOENT p)
  end.

(** Lines 45-51: the value of [fileDatabase] once the module is loaded. *)
Definition load_fileDatabase (d : gmap string string) : js_value :=
  match readFileSync DATABASE_JSON d with
  | Return data =>
      match JSON_parse data with
      | Return v => v
      | Throw _ => JRecords []
      end
  | Throw _ => JRecords []
  end.

(** Lines 53-55. *)
Definition saveDatabase : M unit :=
  modify (λ w, set_disk (<[DATABASE_JSON := JSON_stringify (fileDatabase w)]> (disk w)) w).

(** *** Identifier resolution *)

Inductive binding : Type :=
| BFunction (f : Z → string)
| BValue.

(** Every [const], [let] and [function] declared at the top level of
    server.js.  None of them is a function from a number to a string. *)
Definition module_scope : list (string * binding) :=
  [("express", BValue); ("multer", BValue); ("cors", BValue); ("path", BValue);
   ("fs", BValue); ("shortid", BValue); ("app", BValue); ("UPLOADS_DIR", BValue);
   ("storage", BValue); ("upload", BValue); ("fileDatabase", BValue);
   ("saveDatabase", BValue); ("PORT", BValue)].

(** The bindings of the [GET /d/:id] handler's own body. *)
Definition landing_locals : list (string * binding) :=
  [("req", BValue); ("res", BValue); ("fileInfo", BValue); ("filePath", BValue);
   ("safeFilename", BValue)].

Fixpoint lookup_binding (name : string) (scope : list (string * binding)) : option binding :=
  match scope with
  | [] => None
  | (n, b) :: rest => if decide (n = name) then Some b else lookup_binding name rest
  end.

(** The call [name(arg)] inside a template literal. *)
Definition call (scope : list (string * binding)) (name : string) (arg : Z) : M string :=
  match lookup_binding name scope with
  | None => throw (ReferenceError name)
  | Some (BFunction f) => ret (f arg)
  | Some BValue => throw (TypeError (name +:+ " is not a function"))
  end.

(** *** File system calls *)

Definition existsSync (p : string) (d : gmap string string) : bool :=
  bool_decide (is_Some (d !! p)).

Definition unlinkSync (p : string) : M unit :=
  modify (λ w, set_disk (delete p (disk w)) w).

(** *** Handlers *)

Local Open Scope js_scope.

(** [fileDatabase.find(f => f.id === req.params.id)] together with
    [fileDatabase.findIndex(...)]: the first record with that id and its
    position.  [find] returns the array's own object, so an assignment to
    a field of the result is an update of the array at that position. *)
Definition find_by_id (req_id : string) (db : list FileRecord) : option (nat * FileRecord) :=
  list_find (λ f, id f = req_id) db.

(** [fileInfo.downloadCount++] *)
Definition increment (f : FileRecord) : FileRecord :=
  mkFileRecord (id f) (filename f) (storedName f) (size f) (mimeType f)
    (uploadDate f) (downloadCount f + 1) (expiresAt f).

Definition SEVEN_DAYS : Z := 7 * 24 * 60 * 60 * 1000.

(** [POST /api/upload], lines 63-96.  [new_id] is what [shortid.generate()]
    returns, [t_upload] the instant read by [new Date()] at line 75 and
    [t_now] the one read by [Date.now()] at line 77. *)
Definition post_api_upload (file : option MulterFile) (protocol host : string)
    (new_id : string) (t_upload t_now : Z) : M response :=
  try_catch
    (match file with
     | None => ret (respond 400 (JsonError "No file uploaded" None))
     | Some f =>
         let fileInfo :=
           {| id := new_id;
              filename := originalname f;
              storedName := file_filename f;
              size := file_size f;
              mimeType := mimetype f;
              uploadDate := t_upload;
              downloadCount := 0;
              expiresAt := t_now + SEVEN_DAYS |} in
         modify (λ w, set_fileDatabase (fileDatabase w ++ [fileInfo]) w) ;;;
         saveDatabase ;;;
         let downloadUrl := protocol +:+ "://" +:+ host +:+ "/d/" +:+ id fileInfo in
         ret (respond 200
                (JsonUploaded fileInfo downloadUrl
                   (protocol +:+ "://" +:+ host +:+ "/download/" +:+ id fileInfo)))
     end)
    (λ error,
       console_error "Upload error:" error ;;;
       ret (respond 500 (JsonError "Upload failed" (Some (message error))))).

(** [GET /d/:id], lines 99-365.  [now] is the instant read by [new Date()]
    at line 123. *)
Definition get_d (req_id : string) (now : Z) : M response :=
  try_catch
    (let! db := gets fileDatabase in
     match find_by_id req_id db with
     | None => ret (respond 404 NotFoundPage)
     | Some (i, fileInfo) =>
         if (expiresAt fileInfo <? now)%Z then ret (respond 410 ExpiredPage)
         else
           let fileInfo := increment fileInfo in
           modify (λ w, set_fileDatabase (<[i := fileInfo]> (fileDatabase w)) w) ;;;
           saveDatabase ;;;
           let filePath := path_join UPLOADS_DIR (storedName fileInfo) in
           let safeFilename := encodeURIComponent (filename fileInfo) in
           let title_filename := filename fileInfo in
           let info_filename := filename fileInfo in
           let! size_text :=
             call (landing_locals ++ module_scope) "formatBytes" (size fileInfo) in
           let date_text := toLocaleDateString (uploadDate fileInfo) in
           ret (respond 200
                  (LandingPage title_filename info_filename size_text date_text
                     (downloadCount fileInfo) (id fileInfo) (filename fileInfo)))
     end)
    (λ error,
       console_error "Download error:" error ;;;
       ret (respond 500 (Text "Internal server error"))).

(** [GET /api/download/:id], lines 368-395. *)
Definition get_api_download (req_id : string) : M response :=
  try_catch
    (let! db := gets fileDatabase in
     match find_by_id req_id db with
     | None => ret (respond 404 (JsonError "File not found" None))
     | Some (_, fileInfo) =>
         let filePath := path_join UPLOADS_DIR (storedName fileInfo) in
         let! d := gets disk in
         if negb (existsSync filePath d)
         then ret (respond 404 (JsonError "File not found on server" None))
         else
           let headers :=
             [("Content-Type", HString (mimeType fileInfo));
              ("Content-Disposition",
               HString ("attachment; filename=" +:+ dquote
                        +:+ encodeURIComponent (filename fileInfo) +:+ dquote));
              ("Content-Length", HNumber (size fileInfo))] in
           ret (mkResponse 200 headers (FileStream (default EmptyString (d !! filePath))))
     end)
    (λ error,
       console_error "Direct download error:" error ;;;
       ret (respond 500 (JsonError "Download failed" None))).

(** [GET /api/files], lines 398-412. *)
Definition get_api_files (protocol host : string) : M response :=
  let! db := gets fileDatabase in
  ret (respond 200
         (JsonFiles (length db)
            (map (λ f, mkFileListing (id f) (filename f) (size f) (uploadDate f)
                         (downloadCount f) (expiresAt f)
                         (protocol +:+ "://" +:+ host +:+ "/d/" +:+ id f)) db))).

(** [DELETE /api/files/:id], lines 415-440. *)
Definition delete_api_files (req_id : string) : M response :=
  try_catch
    (let! db := gets fileDatabase in
     match find_by_id req_id db with
     | None => ret (respond 404 (JsonError "File not found" None))
     | Some (index, fileInfo) =>
         let filePath := path_join UPLOADS_DIR (storedName fileInfo) in
         let! d := gets disk in
         (if existsSync filePath d then unlinkSync filePath else ret tt) ;;;
         modify (λ w, set_fileDatabase (delete index (fileDatabase w)) w) ;;;
         saveDatabase ;;;
         ret (respond 200 JsonDeleted)
     end)
    (λ error,
       console_error "Delete error:" error ;;;
       ret (respond 500 (JsonError "Delete failed" None))).

(** *** States reached by the handlers *)

(** After a counted visit of the record [r] at position [k]. *)
Definition visited (k : nat) (r : FileRecord) (w : world) : world :=
  let db := <[k := increment r]> (fileDatabase w) in
  mkWorld db (<[DATABASE_JSON := JSON_stringify db]> (disk w))
    (console w ++ [("Download error:", ReferenceError "formatBytes")]).

(** The headers set at lines 383-385. *)
Definition download_headers (r : FileRecord) : list (string * header_value) :=
  [("Content-Type", HString (mimeType r));
   ("Content-Disposition",
    HString ("attachment; filename=" +:+ dquote
             +:+ encodeURIComponent (filename r) +:+ dquote));
   ("Content-Length", HNumber (size r))].

(** The record an upload creates. *)
Definition uploaded_record (f : MulterFile) (new_id : string) (t_upload t_now : Z) :
    FileRecord :=
  mkFileRecord new_id (originalname f) (file_filename f) (file_size f) (mimetype f)
    t_upload 0 (t_now + SEVEN_DAYS).

(** After the deletion of the record [r] at position [k]. *)
Definition deleted (k : nat) (r : FileRecord) (w : world) : world :=
  let db := delete k (fileDatabase w) in
  mkWorld db
    (<[DATABASE_JSON := JSON_stringify db]>
       (delete (path_join UPLOADS_DIR (storedName r)) (disk w)))
    (console w).

(** *** The upload middleware *)

(** [path.extname] is taken from the platform, and so is what multer's
    parser makes of a part's headers: the file name it reports for the one
    the client sent (decoded, without directories, empty for [.] and
    [..]) and the content type it reports (normalised, with a default
    when the part has none). *)
Variable extname : string → string.
Variable busboy_filename : string → string.
Variable busboy_mimetype : option string → string.

(** Line 36. *)
Definition FILE_SIZE_LIMIT : Z := 100 * 1024 * 1024.

(** multer refuses a part longer than [fileSize]; whether it also refuses
    one of exactly [fileSize] bytes depends on the version of its parser,
    and is taken from the platform. *)
Variable refuses_at_limit : bool.

Definition too_large (bytes : Z) : bool :=
  (FILE_SIZE_LIMIT <? bytes)%Z || refuses_at_limit && (bytes =? FILE_SIZE_LIMIT)%Z.

(** Lines 25-30: the name the blob is stored under, built from a generated
    id of its own and the extension of the client's file name. *)
Definition storage_filename (uniqueId originalname : string) : string :=
  uniqueId +:+ extname originalname.

(** [file.originalname]: empty when the part gives no file name. *)
Definition reported_filename (p : FilePart) : string :=
  match part_filename p with
  | Some name => busboy_filename name
  | None => EmptyString
  end.

(** The parts multer looks at: it lets a part without a file name pass by
    before anything else. *)
Definition named_files (parts : list FilePart) : list FilePart :=
  filter (λ p, reported_filename p ≠ EmptyString) parts.

(** [upload.single('file')] with the disk storage of lines 21-31, the
    filter of lines 38-41, which lets every file through, and the limit of
    line 36.  One file is expected, in the field [file].  The first named
    file is refused if it comes in another field; otherwise its bytes are
    written under [UPLOADS_DIR], under a name built from [uniqueId].  If it
    is too large, or if another named file follows, the request is refused
    and the file written for it is removed. *)
Definition upload_single (parts : list FilePart) (uniqueId : string)
    (w : world) : multer_result * world :=
  match named_files parts with
  | [] => (Next None, w)
  | p :: rest =>
      if decide (part_fieldname p = "file") then
        let originalname := reported_filename p in
        let name := storage_filename uniqueId originalname in
        let path := path_join UPLOADS_DIR name in
        let bytes := Z.of_nat (String.length (part_content p)) in
        if too_large bytes
        then (NextError "LIMIT_FILE_SIZE", set_disk (delete path (disk w)) w)
        else
          match rest with
          | [] =>
              (Next (Some (mkMulterFile originalname name bytes
                             (busboy_mimetype (part_type p)))),
               set_disk (<[path := part_content p]> (disk w)) w)
          | _ :: _ =>
              (NextError "LIMIT_UNEXPECTED_FILE", set_disk (delete path (disk w)) w)
          end
      else (NextError "LIMIT_UNEXPECTED_FILE", w)
  end.

(** *** Routing *)

(** [app.post('/api/upload', upload.single('file'), handler)], line 63. *)
Definition post_api_upload_route (part : list FilePart)
    (protocol host uniqueId new_id : string) (t_upload t_now : Z)
    (w : world) : reply * world :=
  match upload_single part uniqueId w with
  | (NextError code, w') => (Refused code, w')
  | (Next file, w') =>
      let (o, w'') := post_api_upload file protocol host new_id t_upload t_now w' in
      (to_reply o, w'')
  end.

Definition handle (req : request) (w : world) : reply * world :=
  match req with
  | PostUpload part protocol host uniqueId new_id t_upload t_now =>
      post_api_upload_route part protocol host uniqueId new_id t_upload t_now w
  | GetLanding req_id now => let (o, w') := get_d req_id now w in (to_reply o, w')
  | GetDownload req_id => let (o, w') := get_api_download req_id w in (to_reply o, w')
  | GetFiles protocol host =>
      let (o, w') := get_api_files protocol host w in (to_reply o, w')
  | DeleteFile req_id => let (o, w') := delete_api_files req_id w in (to_reply o, w')
  end.

(** The state after a sequence of requests served one after the other. *)
Definition run (reqs : list request) (w : world) : world :=
  foldl (λ w req, (handle req w).2) w reqs.

(** The state after visiting [/d/{req_id}] at each of the instants [nows]. *)
Definition visits (req_id : string) (nows : list Z) (w : world) : world :=
  foldl (λ w now, (get_d req_id now w).2) w nows.

(** A process started on the disk [d]: lines 45-51 give it its store.  A
    document that parses to something else than an array leaves no store
    the routes can work on. *)
Definition boot (d : gmap string string) : option world :=
  match load_fileDatabase d with
  | JRecords db => Some (mkWorld db d [])
  | JOther _ => None
  end.

(** *** Predicates on states *)

(** The document on disk is the printed store. *)
Definition synced (w : world) : Prop :=
  disk w !! DATABASE_JSON = Some (JSON_stringify (fileDatabase w)).

(** A process started now would load the store this one has. *)
Definition consistent (w : world) : Prop :=
  load_fileDatabase (disk w) = JRecords (fileDatabase w).

(** An upload that creates a record does so under an id the store does not
    hold yet. *)
Definition upload_id_fresh (req : request) (w : world) : Prop :=
  match req with
  | PostUpload _ _ _ _ new_id _ _ => new_id ∉ (id <$> fileDatabase w)
  | _ => True
  end.

(** One entry of the listing, lines 402-410. *)
Definition listing (protocol host : string) (f : FileRecord) : FileListing :=
  mkFileListing (id f) (filename f) (size f) (uploadDate f) (downloadCount f)
    (expiresAt f) (protocol +:+ "://" +:+ host +:+ "/d/" +:+ id f).

(** The answer of the direct download, from what [find] returned and what
    is on disk. *)
Definition download_response (found : option FileRecord) (d : gmap string string) :
    response :=
  match found with
  | None => respond 404 (JsonError "File not found" None)
  | Some r =>
      match d !! path_join UPLOADS_DIR (storedName r) with
      | None => respond 404 (JsonError "File not found on server" None)
      | Some content => mkResponse 200 (download_headers r) (FileStream content)
      end
  end.

(** The answer of the landing page, from what [find] returned and the
    clock. *)
Definition landing_response (found : option FileRecord) (now : Z) : response :=
  match found with
  | None => respond 404 NotFoundPage
  | Some r =>
      if (expiresAt r <? now)%Z then respond 410 ExpiredPage
      else respond 500 (Text "Internal server error")
  end.

(** The ways a request can change the store: an upload appends a record
    with a counter of 0, a visit raises the counter of the record it finds,
    a deletion removes the record it finds. *)
Definition store_change (req : request) (db db' : list FileRecord) : Prop :=
  match req with
  | PostUpload _ _ _ _ new_id _ _ =>
      ∃ rec, id rec = new_id ∧ downloadCount rec = 0%Z ∧ db' = db ++ [rec]
  | GetLanding req_id _ =>
      ∃ k r, find_by_id req_id db = Some (k, r) ∧ db' = <[k := increment r]> db
  | DeleteFile req_id =>
      ∃ k r, find_by_id req_id db = Some (k, r) ∧ db' = delete k db
  | GetDownload _ | GetFiles _ _ => False
  end.

(** Two versions of one record: equal in everything but the counter. *)
Definition same_file (r r' : FileRecord) : Prop :=
  id r' = id r ∧ filename r' = filename r ∧ storedName r' = storedName r
  ∧ size r' = size r ∧ mimeType r' = mimeType r
  ∧ uploadDate r' = uploadDate r ∧ expiresAt r' = expiresAt r.

(** ** Properties *)

(** *** Strings *)

Lemma append_assoc (a b c : string) : (a +:+ b) +:+ c = a +:+ (b +:+ c).
Proof.
  induction a as [|x a IH]; [done |].
  change (String x ((a +:+ b) +:+ c) = String x (a +:+ (b +:+ c))). by f_equal.
Qed.

Lemma length_append (a b : string) :
  String.length (a +:+ b) = (String.length a + String.length b)%nat.
Proof.
  induction a as [|x a IH]; [done |].
  change (S (String.length (a +:+ b)) = S (String.length a + String.length b)).
  by f_equal.
Qed.

Lemma substring_whole (s : string) : substring 0 (String.length s) s = s.
Proof. induction s as [|x s IH]; simpl; [done | by f_equal]. Qed.

Lemma substring_after (a b : string) m :
  substring (String.length a) m (a +:+ b) = substring 0 m b.
Proof.
  induction a as [|x a IH]; [done |].
  change (substring (String.length a) m (a +:+ b) = substring 0 m b). done.
Qed.

(** A string ends with whatever was appended to it last. *)
Lemma endsWith_append (a b : string) : endsWith (a +:+ b) b = true.
Proof.
  unfold endsWith. rewrite length_append.
  destruct (Nat.leb_spec (String.length b) (String.length a + String.length b)) as [_|?];
    [| lia].
  replace (String.length a + String.length b - String.length b)%nat
    with (String.length a) by lia.
  rewrite substring_after, substring_whole. apply String.eqb_refl.
Qed.

(** *** Lookup *)

Lemma find_by_id_Some (req_id : string) (db : list FileRecord) k r :
  find_by_id req_id db = Some (k, r) →
  db !! k = Some r ∧ id r = req_id ∧ (k < length db)%nat.
Proof.
  unfold find_by_id. intros (Hk & Hid & _)%list_find_Some.
  split_and!; [done | done | by eapply lookup_lt_Some].
Qed.

Lemma find_by_id_None (req_id : string) (db : list FileRecord) :
  find_by_id req_id db = None ↔ Forall (λ f, id f ≠ req_id) db.
Proof. unfold find_by_id. by rewrite list_find_None. Qed.

(** Counting a visit does not move the record: the same id is found at the
    same position. *)
Lemma find_by_id_increment (req_id : string) (db : list FileRecord) k r :
  find_by_id req_id db = Some (k, r) →
  find_by_id req_id (<[k := increment r]> db) = Some (k, increment r).
Proof.
  unfold find_by_id. intros (Hk & Hid & Hleast)%list_find_Some.
  apply list_find_Some. split_and!.
  - apply list_lookup_insert_eq. by eapply lookup_lt_Some.
  - done.
  - intros j y Hj Hlt. rewrite list_lookup_insert_ne in Hj by lia. eauto.
Qed.

(** *** The landing page *)

(** A name that is bound to a function is called. *)
Lemma call_bound (scope : list (string * binding)) (name : string) f (n : Z) (w : world) :
  call ((name, BFunction f) :: scope) name n w = (Return (f n), w).
Proof. unfold call. simpl. by rewrite decide_True. Qed.

(** [formatBytes] is declared only inside the text of the page, as part of
    its client-side script (lines 349-356); the handler's scope has no such
    name. *)
Lemma formatBytes_unbound :
  lookup_binding "formatBytes" (landing_locals ++ module_scope) = None.
Proof. reflexivity. Qed.

(** What a visit of an existing, unexpired record does: the counter is
    raised and saved, then the template throws while it is being
    evaluated, and the catch clause answers. *)
Lemma get_d_visit (req_id : string) (now : Z) (w : world) k r :
  find_by_id req_id (fileDatabase w) = Some (k, r) →
  (expiresAt r <? now)%Z = false →
  get_d req_id now w =
    (Return (respond 500 (Text "Internal server error")), visited k r w).
Proof.
  intros Hfind Hfresh.
  unfold get_d, try_catch, bind, gets. rewrite Hfind. cbv beta iota.
  rewrite Hfresh. unfold call. rewrite formatBytes_unbound. reflexivity.
Qed.

(** C3. A visit of [/d/{id}] for a record that is found and passes the
    expiry check raises that record's [downloadCount] by exactly 1, keeps
    its other fields, keeps every other record and the length of the
    store; a second such visit brings the counter to two more than at the
    start, hence to 2 for a fresh record. *)
Theorem get_d_counts_each_visit (req_id : string) (now now' : Z) (w : world) k r :
  find_by_id req_id (fileDatabase w) = Some (k, r) →
  (expiresAt r <? now)%Z = false →
  (expiresAt r <? now')%Z = false →
  let w1 := (get_d req_id now w).2 in
  let w2 := (get_d req_id now' w1).2 in
  (∃ r1, fileDatabase w1 !! k = Some r1
         ∧ downloadCount r1 = (downloadCount r + 1)%Z
         ∧ id r1 = id r ∧ filename r1 = filename r ∧ storedName r1 = storedName r
         ∧ size r1 = size r ∧ mimeType r1 = mimeType r
         ∧ uploadDate r1 = uploadDate r ∧ expiresAt r1 = expiresAt r)
  ∧ length (fileDatabase w1) = length (fileDatabase w)
  ∧ (∀ j, j ≠ k → fileDatabase w1 !! j = fileDatabase w !! j)
  ∧ (∃ r2, fileDatabase w2 !! k = Some r2
           ∧ downloadCount r2 = (downloadCount r + 2)%Z
           ∧ (downloadCount r = 0%Z → downloadCount r2 = 2%Z)).
Proof.
  intros Hfind Hfresh Hfresh' w1 w2.
  destruct (find_by_id_Some _ _ _ _ Hfind) as (Hk & _ & Hlen).
  assert (Hw1 : w1 = visited k r w) by (unfold w1; by rewrite (get_d_visit _ _ _ k r)).
  assert (Hw2 : w2 = visited k (increment r) w1).
  { unfold w2. rewrite (get_d_visit _ _ _ k (increment r)); [done | | done].
    rewrite Hw1. simpl. by apply find_by_id_increment. }
  split_and!.
  - exists (increment r). rewrite Hw1. simpl.
    split_and!; try done. by apply list_lookup_insert_eq.
  - rewrite Hw1. simpl. apply length_insert.
  - intros j Hj. rewrite Hw1. simpl. by apply list_lookup_insert_ne.
  - exists (increment (increment r)). rewrite Hw2, Hw1. simpl.
    split_and!.
    + apply list_lookup_insert_eq. by rewrite length_insert.
    + lia.
    + lia.
Qed.

(** C4. A visit of [/d/{id}] for a record whose [expiresAt] is strictly
    earlier than the current instant answers 410 and changes nothing: the
    store, the disk and the log are as before. *)
Theorem get_d_expired (req_id : string) (now : Z) (w : world) k r :
  find_by_id req_id (fileDatabase w) = Some (k, r) →
  (expiresAt r < now)%Z →
  get_d req_id now w = (Return (respond 410 ExpiredPage), w).
Proof.
  intros Hfind Hpast.
  unfold get_d, try_catch, bind, gets. rewrite Hfind. simpl.
  by rewrite (proj2 (Z.ltb_lt _ _) Hpast).
Qed.

(** C10. The landing page never looks at the blob: when the record is
    found and unexpired but its blob is gone from disk, the answer is not
    a 404; the record's [downloadCount] is one higher than before, its
    other fields are unchanged, the document on disk holds the new store,
    and the blob is still missing. *)
Theorem get_d_ignores_missing_blob (req_id : string) (now : Z) (w : world) k r :
  find_by_id req_id (fileDatabase w) = Some (k, r) →
  (expiresAt r <? now)%Z = false →
  disk w !! path_join UPLOADS_DIR (storedName r) = None →
  ∃ resp w' r',
    get_d req_id now w = (Return resp, w')
    ∧ status resp ≠ 404%Z
    ∧ fileDatabase w' !! k = Some r'
    ∧ downloadCount r' = (downloadCount r + 1)%Z
    ∧ id r' = id r ∧ filename r' = filename r ∧ storedName r' = storedName r
    ∧ size r' = size r ∧ mimeType r' = mimeType r
    ∧ uploadDate r' = uploadDate r ∧ expiresAt r' = expiresAt r
    ∧ disk w' !! DATABASE_JSON = Some (JSON_stringify (fileDatabase w'))
    ∧ disk w' !! path_join UPLOADS_DIR (storedName r) = None.
Proof.
  intros Hfind Hfresh Hblob.
  destruct (find_by_id_Some _ _ _ _ Hfind) as (_ & _ & Hlen).
  exists (respond 500 (Text "Internal server error")), (visited k r w), (increment r).
  split; [by apply get_d_visit |]. simpl.
  split_and!; try done.
  - by apply list_lookup_insert_eq.
  - by apply lookup_insert_eq.
  - rewrite lookup_insert_ne; [done |].
    unfold DATABASE_JSON, UPLOADS_DIR, path_join.
    rewrite append_assoc. intros Heq%(inj (String.append dirname)).
    discriminate Heq.
Qed.

(** *** Direct download *)

(** C5. When the record is found and its blob is on disk, the direct
    download answers 200 with the blob as body, the stored [mimeType] as
    [Content-Type], an attachment disposition carrying the URL-encoded
    original name, and the stored [size] as [Content-Length].  The handler
    reads no clock and the statement puts no condition on [expiresAt], so
    this holds for expired records too; the state, counters included, is
    left as it was. *)
Theorem get_api_download_streams (req_id : string) (w : world) k r content :
  find_by_id req_id (fileDatabase w) = Some (k, r) →
  disk w !! path_join UPLOADS_DIR (storedName r) = Some content →
  get_api_download req_id w =
    (Return (mkResponse 200 (download_headers r) (FileStream content)), w).
Proof.
  intros Hfind Hblob.
  unfold get_api_download, try_catch, bind, gets. rewrite Hfind. cbv beta iota.
  unfold existsSync. rewrite Hblob.
  rewrite bool_decide_eq_true_2 by eauto. reflexivity.
Qed.

(** Both download routes on an id that is not in the store. *)
Lemma unknown_id_404 (req_id : string) (now : Z) (w : world) :
  find_by_id req_id (fileDatabase w) = None →
  get_d req_id now w = (Return (respond 404 NotFoundPage), w)
  ∧ get_api_download req_id w =
      (Return (respond 404 (JsonError "File not found" None)), w).
Proof.
  intros Hnone.
  unfold get_d, get_api_download, try_catch, bind, gets. by rewrite Hnone.
Qed.

(** C6. An id that no record carries gets the 404 HTML page from
    [/d/{id}] and a 404 JSON error from [/api/download/{id}]; an id whose
    record is found while its blob is not on disk gets a 404 JSON error
    from [/api/download/{id}].  Nothing changes in either case. *)
Theorem unknown_id_or_missing_blob_is_404 (req_id : string) (now : Z) (w : world) :
  (Forall (λ f, id f ≠ req_id) (fileDatabase w) →
   get_d req_id now w = (Return (respond 404 NotFoundPage), w)
   ∧ get_api_download req_id w =
       (Return (respond 404 (JsonError "File not found" None)), w))
  ∧ (∀ k r,
       find_by_id req_id (fileDatabase w) = Some (k, r) →
       disk w !! path_join UPLOADS_DIR (storedName r) = None →
       get_api_download req_id w =
         (Return (respond 404 (JsonError "File not found on server" None)), w)).
Proof.
  split.
  - intros Hnone%find_by_id_None. by apply unknown_id_404.
  - intros k r Hfind Hblob.
    unfold get_api_download, try_catch, bind, gets. rewrite Hfind. cbv beta iota.
    unfold existsSync. rewrite Hblob.
    rewrite bool_decide_eq_false_2 by (intros [? ?]; done). reflexivity.
Qed.

(** *** Upload *)

Lemma downloadUrl_endsWith (protocol host file_id : string) :
  endsWith (protocol +:+ "://" +:+ host +:+ "/d/" +:+ file_id) ("/d/" +:+ file_id) = true.
Proof.
  rewrite <- (append_assoc protocol), <- (append_assoc _ host).
  apply endsWith_append.
Qed.

(** The whole effect of an upload that carries a file. *)
Lemma post_api_upload_run (f : MulterFile) (protocol host new_id : string)
    (t_upload t_now : Z) (w : world) :
  let fileInfo := uploaded_record f new_id t_upload t_now in
  let db := fileDatabase w ++ [fileInfo] in
  post_api_upload (Some f) protocol host new_id t_upload t_now w =
    (Return (respond 200
               (JsonUploaded fileInfo
                  (protocol +:+ "://" +:+ host +:+ "/d/" +:+ new_id)
                  (protocol +:+ "://" +:+ host +:+ "/download/" +:+ new_id))),
     mkWorld db (<[DATABASE_JSON := JSON_stringify db]> (disk w)) (console w)).
Proof. reflexivity. Qed.

(** C7. An upload that carries a file answers 200 and appends exactly one
    record: its [filename], [size] and [mimeType] are the uploaded file's,
    its [downloadCount] is 0, its [expiresAt] is seven days after the
    instant read for it; when the two instants the handler reads are less
    than a minute apart, [expiresAt] is within a minute of
    [uploadDate] + 7 days.  The document on disk then holds the new store. *)
Theorem post_api_upload_appends (f : MulterFile) (protocol host new_id : string)
    (t_upload t_now : Z) (w : world) :
  ∃ fileInfo downloadUrl directDownloadUrl w',
    post_api_upload (Some f) protocol host new_id t_upload t_now w =
      (Return (respond 200 (JsonUploaded fileInfo downloadUrl directDownloadUrl)), w')
    ∧ fileDatabase w' = fileDatabase w ++ [fileInfo]
    ∧ id fileInfo = new_id
    ∧ filename fileInfo = originalname f
    ∧ size fileInfo = file_size f
    ∧ mimeType fileInfo = mimetype f
    ∧ downloadCount fileInfo = 0%Z
    ∧ uploadDate fileInfo = t_upload
    ∧ expiresAt fileInfo = (t_now + 7 * 24 * 60 * 60 * 1000)%Z
    ∧ ((Z.abs (t_now - t_upload) < 60000)%Z →
       (Z.abs (expiresAt fileInfo - (uploadDate fileInfo + 7 * 24 * 60 * 60 * 1000))
        < 60000)%Z)
    ∧ disk w' !! DATABASE_JSON = Some (JSON_stringify (fileDatabase w')).
Proof.
  eexists _, _, _, _. split; [apply post_api_upload_run |]. simpl.
  split_and!; try done.
  - unfold SEVEN_DAYS. lia.
  - by apply lookup_insert_eq.
Qed.

(** *** Start-up *)

(** C8. When the module is loaded, [fileDatabase] is the empty array if
    [database.json] is absent or does not parse, and otherwise the value
    the document holds: the whole record array it was written from. *)
Theorem load_fileDatabase_spec (d : gmap string string) :
  (d !! DATABASE_JSON = None → load_fileDatabase d = JRecords [])
  ∧ (∀ data e,
       d !! DATABASE_JSON = Some data → JSON_parse data = Throw e →
       load_fileDatabase d = JRecords [])
  ∧ (∀ data v,
       d !! DATABASE_JSON = Some data → JSON_parse data = Return v →
       load_fileDatabase d = v)
  ∧ (∀ data records,
       d !! DATABASE_JSON = Some data → JSON_parse data = Return (JRecords records) →
       load_fileDatabase d = JRecords records).
Proof.
  unfold load_fileDatabase, readFileSync. split_and!.
  - by intros ->.
  - by intros data e -> ->.
  - by intros data v -> ->.
  - by intros data records -> ->.
Qed.

(** A restart after a save finds the store again, provided the platform's
    parser reads back what its printer wrote. *)
Lemma load_after_save (w : world) :
  JSON_parse (JSON_stringify (fileDatabase w)) = Return (JRecords (fileDatabase w)) →
  load_fileDatabase (disk (saveDatabase w).2) = JRecords (fileDatabase w).
Proof.
  intros Hround. unfold load_fileDatabase, readFileSync, saveDatabase, modify. simpl.
  by rewrite lookup_insert_eq, Hround.
Qed.

(** *** Deletion *)

(** A blob never lives at the path of the store's document. *)
Lemma blob_path_ne_database (name : string) :
  path_join UPLOADS_DIR name ≠ DATABASE_JSON.
Proof.
  unfold path_join, UPLOADS_DIR, DATABASE_JSON, path_join.
  rewrite append_assoc. intros Heq%(inj (String.append dirname)).
  discriminate Heq.
Qed.

(** With unique ids, removing the record at a position removes its id from
    the store. *)
Lemma delete_removes_id (db : list FileRecord) k r :
  NoDup (id <$> db) → db !! k = Some r →
  Forall (λ f, id f ≠ id r) (delete k db).
Proof.
  intros Hnodup Hk. apply Forall_lookup. intros j y Hj Heq.
  assert (Hidk : (id <$> db) !! k = Some (id r)) by (by rewrite list_lookup_fmap, Hk).
  destruct (decide (j < k)%nat) as [Hlt|Hge].
  - rewrite list_lookup_delete_lt in Hj by done.
    assert (Hidj : (id <$> db) !! j = Some (id r)).
    { rewrite list_lookup_fmap, Hj. simpl. by rewrite Heq. }
    pose proof (NoDup_lookup _ _ _ _ Hnodup Hidj Hidk). lia.
  - rewrite list_lookup_delete_ge in Hj by lia.
    assert (Hidj : (id <$> db) !! S j = Some (id r)).
    { rewrite list_lookup_fmap, Hj. simpl. by rewrite Heq. }
    pose proof (NoDup_lookup _ _ _ _ Hnodup Hidj Hidk). lia.
Qed.

(** The whole effect of deleting a record that is found. *)
Lemma delete_api_files_run (req_id : string) (w : world) k r :
  find_by_id req_id (fileDatabase w) = Some (k, r) →
  delete_api_files req_id w = (Return (respond 200 JsonDeleted), deleted k r w).
Proof.
  intros Hfind.
  unfold delete_api_files, try_catch, bind, gets. rewrite Hfind. cbv beta iota.
  unfold existsSync, deleted.
  destruct (disk w !! path_join UPLOADS_DIR (storedName r)) as [content|] eqn:Hblob.
  - rewrite bool_decide_eq_true_2 by eauto. reflexivity.
  - rewrite bool_decide_eq_false_2 by (intros [? ?]; done).
    rewrite (delete_id _ _ Hblob). destruct w; reflexivity.
Qed.

(** C9. Deleting an id that no record carries answers 404 with a JSON
    error and changes nothing.  Deleting an id that is found answers 200
    with the success body; the record is taken out of the sequence, its
    blob is no longer on disk (whether or not it was there), no other file
    is touched, and the document on disk holds the new store.  With unique
    ids, both download routes then answer 404 for that id. *)
Theorem delete_api_files_spec (req_id : string) (w : world) :
  (Forall (λ f, id f ≠ req_id) (fileDatabase w) →
   delete_api_files req_id w =
     (Return (respond 404 (JsonError "File not found" None)), w))
  ∧ (∀ k r,
       find_by_id req_id (fileDatabase w) = Some (k, r) →
       let blob := path_join UPLOADS_DIR (storedName r) in
       ∃ w',
         delete_api_files req_id w = (Return (respond 200 JsonDeleted), w')
         ∧ fileDatabase w' = delete k (fileDatabase w)
         ∧ disk w' !! blob = None
         ∧ (∀ p, p ≠ blob → p ≠ DATABASE_JSON → disk w' !! p = disk w !! p)
         ∧ disk w' !! DATABASE_JSON = Some (JSON_stringify (fileDatabase w'))
         ∧ (NoDup (id <$> fileDatabase w) →
            ∀ now,
              get_api_download req_id w' =
                (Return (respond 404 (JsonError "File not found" None)), w')
              ∧ get_d req_id now w' = (Return (respond 404 NotFoundPage), w'))).
Proof.
  split.
  - intros Hnone%find_by_id_None.
    unfold delete_api_files, try_catch, bind, gets. by rewrite Hnone.
  - intros k r Hfind blob.
    destruct (find_by_id_Some _ _ _ _ Hfind) as (Hk & Hid & _).
    exists (deleted k r w). split; [by apply delete_api_files_run |]. simpl.
    split_and!.
    + done.
    + rewrite lookup_insert_ne by (intros Heq; by eapply blob_path_ne_database).
      apply lookup_delete_eq.
    + intros p Hblob Hdb.
      rewrite lookup_insert_ne by done. by rewrite lookup_delete_ne.
    + apply lookup_insert_eq.
    + intros Hnodup now.
      pose proof (delete_removes_id _ _ _ Hnodup Hk) as Hgone. rewrite Hid in Hgone.
      apply find_by_id_None in Hgone.
      destruct (unknown_id_404 req_id now (deleted k r w) Hgone) as [Hd Hdl].
      by split.
Qed.

(** *** Read-only routes *)

(** The direct download in one equation: its answer is a function of the
    record [find] returns and of the disk, and the state is handed back. *)
Lemma get_api_download_run (req_id : string) (w : world) :
  get_api_download req_id w =
    (Return (download_response (snd <$> find_by_id req_id (fileDatabase w)) (disk w)), w).
Proof.
  unfold get_api_download, try_catch, bind, gets, download_response.
  destruct (find_by_id req_id (fileDatabase w)) as [[k r]|]; [| reflexivity].
  cbv beta iota. simpl. unfold existsSync.
  destruct (disk w !! path_join UPLOADS_DIR (storedName r)) as [content|] eqn:Hblob.
  - rewrite bool_decide_eq_true_2 by eauto. reflexivity.
  - rewrite bool_decide_eq_false_2 by (intros [? ?]; done). reflexivity.
Qed.

(** X2. Whatever the id and whatever the store, and whichever branch is
    taken, [GET /api/download/:id] and [GET /api/files] change neither the
    store nor anything on disk: no direct download is ever counted or
    saved. *)
Theorem read_only_routes (req_id protocol host : string) (w : world) :
  fileDatabase (get_api_download req_id w).2 = fileDatabase w
  ∧ disk (get_api_download req_id w).2 = disk w
  ∧ fileDatabase (get_api_files protocol host w).2 = fileDatabase w
  ∧ disk (get_api_files protocol host w).2 = disk w.
Proof. rewrite get_api_download_run. by split_and!. Qed.

(** X1. [GET /api/files] reports as many files as the store holds and
    lists them in store order, expired or not: entry [i] carries the id,
    name, size, dates and counter of record [i], and a [downloadUrl] ending
    in [/d/{id}]. *)
Theorem get_api_files_lists_store (protocol host : string) (w : world) :
  ∃ files,
    get_api_files protocol host w =
      (Return (respond 200 (JsonFiles (length (fileDatabase w)) files)), w)
    ∧ length files = length (fileDatabase w)
    ∧ ∀ i r, fileDatabase w !! i = Some r →
        ∃ e, files !! i = Some e
             ∧ l_id e = id r ∧ l_filename e = filename r ∧ l_size e = size r
             ∧ l_uploadDate e = uploadDate r
             ∧ l_downloadCount e = downloadCount r
             ∧ l_expiresAt e = expiresAt r
             ∧ endsWith (l_downloadUrl e) ("/d/" +:+ id r) = true.
Proof.
  exists (listing protocol host <$> fileDatabase w). split_and!.
  - reflexivity.
  - apply length_fmap.
  - intros i r Hi. exists (listing protocol host r).
    rewrite list_lookup_fmap, Hi. simpl.
    split_and!; try done. apply downloadUrl_endsWith.
Qed.

(** X3. Listing before and after an upload: the count grows by one, the
    entries already listed are the same in the same order, and one entry is
    added at the end, for the uploaded file, with a counter of 0. *)
Theorem upload_then_list (f : MulterFile) (protocol host new_id : string)
    (t_upload t_now : Z) (w : world) :
  let w' := (post_api_upload (Some f) protocol host new_id t_upload t_now w).2 in
  ∃ old new,
    (get_api_files protocol host w).1 =
      Return (respond 200 (JsonFiles (length (fileDatabase w)) old))
    ∧ (get_api_files protocol host w').1 =
        Return (respond 200 (JsonFiles (S (length (fileDatabase w))) (old ++ [new])))
    ∧ l_id new = new_id
    ∧ l_filename new = originalname f
    ∧ l_size new = file_size f
    ∧ l_uploadDate new = t_upload
    ∧ l_downloadCount new = 0%Z
    ∧ l_expiresAt new = (t_now + 7 * 24 * 60 * 60 * 1000)%Z.
Proof.
  intros w'. unfold w'. rewrite post_api_upload_run. simpl.
  exists (listing protocol host <$> fileDatabase w),
         (listing protocol host (uploaded_record f new_id t_upload t_now)).
  split_and!; try done.
  unfold get_api_files, bind, gets, ret. simpl.
  rewrite length_app, map_app. simpl.
  by replace (length (fileDatabase w) + 1)%nat with (S (length (fileDatabase w))) by lia.
Qed.

(** X5. The upload does not look for the generated id in the store.  When
    a record already carries it, the upload still answers 200 and appends
    its record, but the id keeps resolving to the older record, at the same
    position: the new file cannot be reached through its own links. *)
Theorem upload_id_collision_is_shadowed (f : MulterFile)
    (protocol host new_id : string) (t_upload t_now : Z) (w : world) k r :
  find_by_id new_id (fileDatabase w) = Some (k, r) →
  ∃ resp w',
    post_api_upload (Some f) protocol host new_id t_upload t_now w = (Return resp, w')
    ∧ status resp = 200%Z
    ∧ length (fileDatabase w') = S (length (fileDatabase w))
    ∧ find_by_id new_id (fileDatabase w') = Some (k, r)
    ∧ get_api_download new_id w' =
        (Return (download_response (Some r) (disk w')), w').
Proof.
  intros Hfind. eexists _, _. split; [apply post_api_upload_run |]. simpl.
  assert (Hfind' : find_by_id new_id
                     (fileDatabase w ++ [uploaded_record f new_id t_upload t_now])
                   = Some (k, r)) by (by apply list_find_app_l).
  split_and!.
  - done.
  - rewrite length_app. simpl. lia.
  - done.
  - rewrite get_api_download_run. simpl. by rewrite Hfind'.
Qed.

(** *** Repeated visits and the expiry bound *)

(** X7. Visiting [/d/{id}] at [n] instants, none of them past the record's
    [expiresAt], raises its counter by exactly [n]; its other fields, the
    other records and the length of the store are as before. *)
Theorem visits_count (req_id : string) (nows : list Z) (w : world) k r :
  find_by_id req_id (fileDatabase w) = Some (k, r) →
  Forall (λ now, (now ≤ expiresAt r)%Z) nows →
  let w' := visits req_id nows w in
  (∃ r', fileDatabase w' !! k = Some r'
         ∧ downloadCount r' = (downloadCount r + Z.of_nat (length nows))%Z
         ∧ id r' = id r ∧ filename r' = filename r ∧ storedName r' = storedName r
         ∧ size r' = size r ∧ mimeType r' = mimeType r
         ∧ uploadDate r' = uploadDate r ∧ expiresAt r' = expiresAt r)
  ∧ length (fileDatabase w') = length (fileDatabase w)
  ∧ (∀ j, j ≠ k → fileDatabase w' !! j = fileDatabase w !! j).
Proof.
  intros Hfind Hnows. revert w r Hfind Hnows.
  induction nows as [|now nows IH]; intros w r Hfind Hnows w'.
  - destruct (find_by_id_Some _ _ _ _ Hfind) as (Hk & _ & _).
    unfold w'. simpl. split_and!; [| done | done].
    exists r. split_and!; try done. lia.
  - apply Forall_cons in Hnows as [Hnow Hnows].
    assert (Hfresh : (expiresAt r <? now)%Z = false) by (apply Z.ltb_ge; lia).
    assert (Hstep : w' = visits req_id nows (visited k r w)).
    { unfold w', visits. simpl. by rewrite (get_d_visit _ _ _ k r). }
    destruct (IH (visited k r w) (increment r)) as ((r' & Hr' & Hcount & Hrest) & Hlen & Hframe).
    { simpl. by apply find_by_id_increment. }
    { done. }
    rewrite Hstep. split_and!.
    + exists r'. split; [done |]. split; [| exact Hrest].
      rewrite Hcount. simpl. lia.
    + rewrite Hlen. simpl. apply length_insert.
    + intros j Hj. rewrite (Hframe j Hj). simpl. by apply list_lookup_insert_ne.
Qed.

(** X8. The expiry test is strict.  At the very instant [expiresAt] the
    record still counts as live: the answer is not 410 and the record's
    [downloadCount] is one higher than before.  One millisecond later the
    answer is 410 and nothing changes. *)
Theorem get_d_expiry_is_strict (req_id : string) (w : world) k r :
  find_by_id req_id (fileDatabase w) = Some (k, r) →
  (∃ resp w' r',
     get_d req_id (expiresAt r) w = (Return resp, w')
     ∧ status resp ≠ 410%Z
     ∧ fileDatabase w' !! k = Some r'
     ∧ downloadCount r' = (downloadCount r + 1)%Z)
  ∧ get_d req_id (expiresAt r + 1) w = (Return (respond 410 ExpiredPage), w).
Proof.
  intros Hfind.
  destruct (find_by_id_Some _ _ _ _ Hfind) as (_ & _ & Hlen). split.
  - exists (respond 500 (Text "Internal server error")), (visited k r w), (increment r).
    split; [apply (get_d_visit _ _ _ k r); [done | apply Z.ltb_irrefl] |].
    simpl. split_and!; [done | by apply list_lookup_insert_eq | done].
  - unfold get_d, try_catch, bind, gets. rewrite Hfind. cbv beta iota.
    by rewrite (proj2 (Z.ltb_lt _ _)) by lia.
Qed.

(** *** The upload route *)

Lemma path_join_inj (dir a b : string) : path_join dir a = path_join dir b → a = b.
Proof.
  unfold path_join. intros Heq%(inj (String.append dir)).
  by apply (inj (String.append "/")) in Heq.
Qed.

(** A part shorter than the limit is never too large. *)
Lemma below_limit_not_too_large (bytes : Z) :
  (bytes < FILE_SIZE_LIMIT)%Z → too_large bytes = false.
Proof.
  intros Hlt. unfold too_large.
  rewrite (proj2 (Z.ltb_ge _ _)) by lia.
  rewrite (proj2 (Z.eqb_neq _ _)) by lia.
  by rewrite andb_false_r.
Qed.

(** Whatever multer does with the body, it leaves the store, the log and
    the store's document alone. *)
Lemma upload_single_frame (parts : list FilePart) (uniqueId : string) (w : world) :
  let w' := (upload_single parts uniqueId w).2 in
  fileDatabase w' = fileDatabase w
  ∧ console w' = console w
  ∧ disk w' !! DATABASE_JSON = disk w !! DATABASE_JSON.
Proof.
  unfold upload_single.
  destruct (named_files parts) as [|p rest]; [done |].
  destruct (decide (part_fieldname p = "file")); [| done].
  assert (Hdoc : ∀ name, path_join UPLOADS_DIR name ≠ DATABASE_JSON)
    by apply blob_path_ne_database.
  destruct (too_large _); [| destruct rest]; simpl; split_and!; try done.
  - by apply lookup_delete_ne.
  - by apply lookup_insert_ne.
  - by apply lookup_delete_ne.
Qed.

(** The whole effect of the route on a body whose only named file multer
    accepts. *)
Lemma post_api_upload_route_accepted (parts : list FilePart) (p : FilePart)
    (protocol host uniqueId new_id : string) (t_upload t_now : Z) (w : world) :
  named_files parts = [p] →
  part_fieldname p = "file" →
  too_large (Z.of_nat (String.length (part_content p))) = false →
  let name := storage_filename uniqueId (reported_filename p) in
  let file := mkMulterFile (reported_filename p) name
                (Z.of_nat (String.length (part_content p)))
                (busboy_mimetype (part_type p)) in
  let fileInfo := uploaded_record file new_id t_upload t_now in
  let db := fileDatabase w ++ [fileInfo] in
  post_api_upload_route parts protocol host uniqueId new_id t_upload t_now w =
    (Responded (respond 200
                  (JsonUploaded fileInfo
                     (protocol +:+ "://" +:+ host +:+ "/d/" +:+ new_id)
                     (protocol +:+ "://" +:+ host +:+ "/download/" +:+ new_id))),
     mkWorld db
       (<[DATABASE_JSON := JSON_stringify db]>
          (<[path_join UPLOADS_DIR name := part_content p]> (disk w)))
       (console w)).
Proof.
  intros Hparts Hfield Hsize name file fileInfo db.
  unfold post_api_upload_route, upload_single.
  rewrite Hparts. rewrite decide_True by done. rewrite Hsize.
  by rewrite post_api_upload_run.
Qed.

Lemma find_by_id_app_fresh (req_id : string) (db : list FileRecord) (x : FileRecord) :
  req_id ∉ (id <$> db) → id x = req_id →
  snd <$> find_by_id req_id (db ++ [x]) = Some x.
Proof.
  intros Hfresh Hid. unfold find_by_id.
  rewrite list_find_app_r.
  - simpl. by rewrite decide_True.
  - apply list_find_None, Forall_forall. intros y Hy Heq.
    apply Hfresh, list_elem_of_fmap. eauto.
Qed.

(** X4. Round trip.  When the body of [POST /api/upload] carries one
    named file, in the field [file], shorter than the size limit, with a
    reported content type made of printable ASCII characters, and the
    generated id is not in the store yet, [GET /api/download/{id}] returns
    it: status 200, the bytes that were sent as body, their number as
    [Content-Length], the content type multer reported as [Content-Type]
    and the file name multer reported, URL-encoded, in the disposition. *)
Theorem upload_then_download_roundtrip (parts : list FilePart) (p : FilePart)
    (protocol host uniqueId new_id : string) (t_upload t_now : Z) (w : world) :
  named_files parts = [p] →
  part_fieldname p = "file" →
  (Z.of_nat (String.length (part_content p)) < FILE_SIZE_LIMIT)%Z →
  header_text (busboy_mimetype (part_type p)) →
  new_id ∉ (id <$> fileDatabase w) →
  let w' :=
    (post_api_upload_route parts protocol host uniqueId new_id t_upload t_now w).2 in
  get_api_download new_id w' =
    (Return
       (mkResponse 200
          [("Content-Type", HString (busboy_mimetype (part_type p)));
           ("Content-Disposition",
            HString ("attachment; filename=" +:+ dquote
                     +:+ encodeURIComponent (reported_filename p) +:+ dquote));
           ("Content-Length", HNumber (Z.of_nat (String.length (part_content p))))]
          (FileStream (part_content p))),
     w').
Proof.
  intros Hparts Hfield Hsize%below_limit_not_too_large _ Hfresh w'. unfold w'.
  rewrite (post_api_upload_route_accepted parts p) by done.
  rewrite get_api_download_run. simpl.
  rewrite find_by_id_app_fresh by done.
  unfold download_response. simpl.
  rewrite lookup_insert_ne by (intros Heq; by eapply blob_path_ne_database).
  by rewrite lookup_insert_eq.
Qed.

(** X6. Uploads that carry no usable file.  When no part of the body has
    a file name, as multer reports it, the handler runs without [req.file]
    and answers 400 with the error [No file uploaded].  When the first
    named file comes in a field other than [file], multer refuses the
    request with [LIMIT_UNEXPECTED_FILE] and the handler does not run.  In
    both cases no blob is written, no record is created and nothing is
    saved: the store and the disk are as before. *)
Theorem upload_without_file (parts : list FilePart)
    (protocol host uniqueId new_id : string) (t_upload t_now : Z) (w : world) :
  (Forall (λ p, reported_filename p = EmptyString) parts →
   post_api_upload_route parts protocol host uniqueId new_id t_upload t_now w =
     (Responded (respond 400 (JsonError "No file uploaded" None)), w))
  ∧ (∀ p rest,
       named_files parts = p :: rest → part_fieldname p ≠ "file" →
       ∃ w',
         post_api_upload_route parts protocol host uniqueId new_id t_upload t_now w =
           (Refused "LIMIT_UNEXPECTED_FILE", w')
         ∧ fileDatabase w' = fileDatabase w
         ∧ disk w' = disk w).
Proof.
  split.
  - intros Hnone. unfold post_api_upload_route, upload_single.
    assert (Hempty : named_files parts = []).
    { unfold named_files. induction Hnone as [|p parts Hp _ IH]; [done |].
      by rewrite filter_cons_False by (by intros []). }
    by rewrite Hempty.
  - intros p rest Hparts Hfield. exists w.
    unfold post_api_upload_route, upload_single.
    rewrite Hparts. by rewrite decide_False by done.
Qed.

(** *** Every request *)

Lemma get_d_expired_run (req_id : string) (now : Z) (w : world) k r :
  find_by_id req_id (fileDatabase w) = Some (k, r) →
  (expiresAt r <? now)%Z = true →
  get_d req_id now w = (Return (respond 410 ExpiredPage), w).
Proof.
  intros Hfind Hpast.
  unfold get_d, try_catch, bind, gets. rewrite Hfind. cbv beta iota.
  by rewrite Hpast.
Qed.

(** The landing page in one equation for its answer. *)
Lemma get_d_response (req_id : string) (now : Z) (w : world) :
  (get_d req_id now w).1 =
    Return (landing_response (snd <$> find_by_id req_id (fileDatabase w)) now).
Proof.
  unfold landing_response.
  destruct (find_by_id req_id (fileDatabase w)) as [[k r]|] eqn:Hfind; simpl.
  - destruct (expiresAt r <? now)%Z eqn:Hexp.
    + by rewrite (get_d_expired_run _ _ _ k r).
    + by rewrite (get_d_visit _ _ _ k r).
  - by rewrite (proj1 (unknown_id_404 req_id now w Hfind)).
Qed.

(** A request leaves the store and its document alone, or changes the
    store in the one way open to its route and saves it. *)
Lemma handle_effect (req : request) (w : world) :
  let w' := (handle req w).2 in
  (fileDatabase w' = fileDatabase w
   ∧ disk w' !! DATABASE_JSON = disk w !! DATABASE_JSON)
  ∨ (store_change req (fileDatabase w) (fileDatabase w') ∧ synced w').
Proof.
  destruct req as [part protocol host uniqueId new_id t_upload t_now
                  | req_id now | req_id | protocol host | req_id]; simpl.
  - pose proof (upload_single_frame part uniqueId w) as (Hdb & _ & Hdoc).
    unfold post_api_upload_route.
    destruct (upload_single part uniqueId w) as [[[f|]|code] w1]; simpl in Hdb, Hdoc.
    + right. rewrite post_api_upload_run. simpl. rewrite Hdb.
      split; [| apply lookup_insert_eq].
      eexists. split_and!; [| | reflexivity]; done.
    + by left.
    + by left.
  - destruct (find_by_id req_id (fileDatabase w)) as [[k r]|] eqn:Hfind.
    + destruct (expiresAt r <? now)%Z eqn:Hexp.
      * left. by rewrite (get_d_expired_run _ _ _ k r).
      * right. rewrite (get_d_visit _ _ _ k r) by done. simpl.
        split; [by exists k, r | apply lookup_insert_eq].
    + left. by rewrite (proj1 (unknown_id_404 req_id now w Hfind)).
  - left. by rewrite get_api_download_run.
  - by left.
  - destruct (find_by_id req_id (fileDatabase w)) as [[k r]|] eqn:Hfind.
    + right. rewrite (delete_api_files_run _ _ k r) by done. simpl.
      split; [by exists k, r | apply lookup_insert_eq].
    + left. unfold delete_api_files, try_catch, bind, gets. by rewrite Hfind.
Qed.

Lemma handle_keeps_sync (req : request) (w : world) :
  synced w → synced (handle req w).2.
Proof.
  intros Hsync. destruct (handle_effect req w) as [[Hdb Hdoc]|[_ Hdone]]; [| done].
  unfold synced in *. by rewrite Hdoc, Hdb.
Qed.

Lemma run_cons (req : request) (reqs : list request) (w : world) :
  run (req :: reqs) w = run reqs (handle req w).2.
Proof. reflexivity. Qed.

Lemma run_effect (reqs : list request) (w : world) :
  (fileDatabase (run reqs w) = fileDatabase w
   ∧ disk (run reqs w) !! DATABASE_JSON = disk w !! DATABASE_JSON)
  ∨ synced (run reqs w).
Proof.
  revert w. induction reqs as [|req reqs IH]; intros w; [by left |].
  rewrite run_cons.
  destruct (IH (handle req w).2) as [[Hdb Hdoc]|Hdone]; [| by right].
  destruct (handle_effect req w) as [[Hdb' Hdoc']|[_ Hdone]].
  - left. by rewrite Hdb, Hdoc.
  - right. unfold synced in *. by rewrite Hdoc, Hdb.
Qed.

(** X9. Every change of the store is saved: after a request that leaves
    the store different from what it was, the document on disk holds the
    printed new store.  And once the document holds the store, it still
    does after any sequence of requests. *)
Theorem every_change_is_saved :
  (∀ req w, fileDatabase (handle req w).2 ≠ fileDatabase w → synced (handle req w).2)
  ∧ (∀ reqs w, synced w → synced (run reqs w)).
Proof.
  split.
  - intros req w Hchanged.
    by destruct (handle_effect req w) as [[Hdb _]|[_ Hdone]].
  - intros reqs w Hsync.
    destruct (run_effect reqs w) as [[Hdb Hdoc]|Hdone]; [| done].
    unfold synced in *. by rewrite Hdoc, Hdb.
Qed.

(** X10. Durability across a restart.  Start from a state that a fresh
    process would load as it is, serve any sequence of requests, and stop.
    If the platform's parser reads back the printed final store, a process
    started on the disk left behind has exactly the final store, and finds
    the disk as it was left. *)
Theorem restart_recovers_store (reqs : list request) (w : world) :
  consistent w →
  JSON_parse (JSON_stringify (fileDatabase (run reqs w)))
  = Return (JRecords (fileDatabase (run reqs w))) →
  boot (disk (run reqs w))
  = Some (mkWorld (fileDatabase (run reqs w)) (disk (run reqs w)) []).
Proof.
  intros Hcons Hround.
  assert (Hload : load_fileDatabase (disk (run reqs w))
                  = JRecords (fileDatabase (run reqs w))).
  { destruct (run_effect reqs w) as [[Hdb Hdoc]|Hdone].
    - unfold consistent, load_fileDatabase, readFileSync in *.
      by rewrite Hdoc, Hdb.
    - unfold load_fileDatabase, readFileSync. unfold synced in Hdone.
      by rewrite Hdone, Hround. }
  unfold boot. by rewrite Hload.
Qed.

(** X11. Ids stay unique: if no two records share an id and the id
    generated for an upload is not in the store, no two records share an
    id after the request, whichever request it is. *)
Theorem handle_keeps_ids_unique (req : request) (w : world) :
  NoDup (id <$> fileDatabase w) →
  upload_id_fresh req w →
  NoDup (id <$> fileDatabase (handle req w).2).
Proof.
  intros Hnodup Hfresh.
  pose proof (handle_effect req w) as Heffect. cbv zeta in Heffect.
  set (db' := fileDatabase (handle req w).2) in *. clearbody db'.
  destruct Heffect as [[Hdb _]|[Hchange _]]; [by rewrite Hdb |].
  destruct req as [part protocol host uniqueId new_id t_upload t_now
                  | req_id now | req_id | protocol host | req_id];
    simpl in Hchange, Hfresh; [| | done | done |].
  - destruct Hchange as (rec & Hid & _ & ->).
    rewrite fmap_app. apply NoDup_app. split_and!; [done | | apply NoDup_singleton].
    intros x Hx [->|[]%elem_of_nil]%elem_of_cons. simpl in Hx. by rewrite Hid in Hx.
  - destruct Hchange as (k & r & Hfind & ->).
    destruct (find_by_id_Some _ _ _ _ Hfind) as (Hk & _ & _).
    rewrite list_fmap_insert. simpl.
    rewrite list_insert_id; [done |]. by rewrite list_lookup_fmap, Hk.
  - destruct Hchange as (k & r & _ & ->).
    rewrite list_fmap_delete. eapply sublist_NoDup; [done | apply sublist_delete].
Qed.

(** *** What a deletion leaves alone *)

(** Removing an element the search would skip does not change what the
    search returns. *)
Lemma list_find_delete_other {A} (P : A → Prop) `{∀ x, Decision (P x)}
    (l : list A) k x :
  l !! k = Some x → ¬ P x →
  snd <$> list_find P (delete k l) = snd <$> list_find P l.
Proof.
  revert k. induction l as [|y l IH]; intros [|k] Hk Hx; simpl in *; try done.
  - injection Hk as ->. rewrite decide_False by done.
    by destruct (list_find P l) as [[? ?]|].
  - destruct (decide (P y)); [done |].
    specialize (IH k Hk Hx).
    destruct (list_find P (delete k l)) as [[? ?]|], (list_find P l) as [[? ?]|];
      simpl in *; congruence.
Qed.

(** X12. Deleting one file leaves the others as they were: any other id
    resolves to the same record as before, the landing page answers it the
    same way, and so does the direct download, as long as the other record
    does not point at the deleted blob. *)
Theorem delete_leaves_other_files (req_id other_id : string) (now : Z) (w : world) k r :
  find_by_id req_id (fileDatabase w) = Some (k, r) →
  other_id ≠ req_id →
  let w' := (delete_api_files req_id w).2 in
  snd <$> find_by_id other_id (fileDatabase w')
  = snd <$> find_by_id other_id (fileDatabase w)
  ∧ (get_d other_id now w').1 = (get_d other_id now w).1
  ∧ ((∀ r', snd <$> find_by_id other_id (fileDatabase w) = Some r' →
            storedName r' ≠ storedName r) →
     (get_api_download other_id w').1 = (get_api_download other_id w).1).
Proof.
  intros Hfind Hother w'. unfold w'.
  destruct (find_by_id_Some _ _ _ _ Hfind) as (Hk & Hid & _).
  assert (Hrun : (delete_api_files req_id w).2 = deleted k r w)
    by (by rewrite (delete_api_files_run _ _ k r)).
  rewrite Hrun. clear Hrun.
  assert (Hsame : snd <$> find_by_id other_id (fileDatabase (deleted k r w))
                  = snd <$> find_by_id other_id (fileDatabase w)).
  { simpl. unfold find_by_id. eapply list_find_delete_other; [done |]. congruence. }
  split_and!.
  - done.
  - by rewrite !get_d_response, Hsame.
  - intros Hblob. rewrite !get_api_download_run. cbv [fst]. rewrite Hsame.
    f_equal. unfold download_response.
    destruct (snd <$> find_by_id other_id (fileDatabase w)) as [r'|]; [| done].
    specialize (Hblob r' eq_refl). simpl.
    rewrite lookup_insert_ne by (intros Heq; by eapply blob_path_ne_database).
    rewrite lookup_delete_ne; [done |].
    intros Heq%path_join_inj. done.
Qed.

(** *** The download headers *)

Lemma hex_digit_unreserved (n : nat) : (n < 16)%nat → is_unreserved (hex_digit n) = true.
Proof. intros Hn. do 16 (destruct n as [|n]; [reflexivity |]). lia. Qed.

(** [encodeURIComponent] produces nothing but unreserved characters and
    percent signs. *)
Lemma encodeURIComponent_chars (s : string) :
  Forall (λ c, is_unreserved c = true ∨ c = "%"%char)
    (list_ascii_of_string (encodeURIComponent s)).
Proof.
  induction s as [|c s IH]; [constructor |].
  pose proof (nat_ascii_bounded c) as Hbound.
  assert (Hhi : (nat_of_ascii c / 16 < 16)%nat)
    by (apply Nat.Div0.div_lt_upper_bound; lia).
  assert (Hlo : (nat_of_ascii c mod 16 < 16)%nat)
    by (apply Nat.mod_upper_bound; lia).
  apply hex_digit_unreserved in Hhi, Hlo.
  cbn [encodeURIComponent]. destruct (is_unreserved c) eqn:Hc.
  - constructor; [by left | done].
  - constructor; [by right |].
    constructor; [by left |].
    constructor; [by left | done].
Qed.

(** It is the identity on names made of unreserved characters. *)
Lemma encodeURIComponent_unreserved (s : string) :
  Forall (λ c, is_unreserved c = true) (list_ascii_of_string s) →
  encodeURIComponent s = s.
Proof.
  induction s as [|c s IH]; simpl; [done |].
  intros [Hc Hs]%Forall_cons. rewrite Hc. by rewrite IH.
Qed.

(** X13. Whatever the stored file name, the [Content-Disposition] header
    of a download is [attachment; filename="..."] around a name made only
    of unreserved characters and percent signs: the name holds no double
    quote, no carriage return and no line feed, so it cannot close the
    quoted string or start another header.  A name made of unreserved
    characters is sent as it is. *)
Theorem content_disposition_is_header_safe (r : FileRecord) :
  ∃ name,
    download_headers r !! 1%nat
    = Some ("Content-Disposition",
            HString ("attachment; filename=" +:+ dquote +:+ name +:+ dquote))
    ∧ (∀ c, c ∈ list_ascii_of_string name →
         (is_unreserved c = true ∨ c = "%"%char)
         ∧ c ≠ ascii_of_nat 34 ∧ c ≠ ascii_of_nat 13 ∧ c ≠ ascii_of_nat 10)
    ∧ (Forall (λ c, is_unreserved c = true) (list_ascii_of_string (filename r)) →
       name = filename r).
Proof.
  exists (encodeURIComponent (filename r)). split_and!.
  - reflexivity.
  - intros c Hc.
    pose proof (proj1 (Forall_forall _ _) (encodeURIComponent_chars (filename r)) c Hc)
      as Hsafe.
    split; [done |].
    split_and!; intros ->; by destruct Hsafe.
  - apply encodeURIComponent_unreserved.
Qed.

(** *** Records over time *)

Lemma same_file_refl (r : FileRecord) : same_file r r.
Proof. by repeat split. Qed.

(** X14. No request rewrites a record.  Every record of the store after a
    request is either a record of the store before it, with the same id,
    names, size, type, upload date and expiry and a counter that is the
    same or one higher, or the record an upload has just created under the
    generated id, with a counter of 0.  In particular [expiresAt] is never
    extended and a counter never goes down. *)
Theorem records_only_gain_counts (req : request) (w : world) (r' : FileRecord) :
  r' ∈ fileDatabase (handle req w).2 →
  (∃ r, r ∈ fileDatabase w ∧ same_file r r'
        ∧ (downloadCount r ≤ downloadCount r' ≤ downloadCount r + 1)%Z)
  ∨ (∃ part protocol host uniqueId new_id t_upload t_now,
       req = PostUpload part protocol host uniqueId new_id t_upload t_now
       ∧ id r' = new_id ∧ downloadCount r' = 0%Z).
Proof.
  pose proof (handle_effect req w) as Heffect. cbv zeta in Heffect.
  set (db' := fileDatabase (handle req w).2) in *. clearbody db'.
  intros Hin.
  assert (Hold : ∀ x, x ∈ fileDatabase w →
            ∃ r, r ∈ fileDatabase w ∧ same_file r x
                 ∧ (downloadCount r ≤ downloadCount x ≤ downloadCount r + 1)%Z).
  { intros x Hx. exists x. split_and!; [done | apply same_file_refl | lia | lia]. }
  destruct Heffect as [[Hdb _]|[Hchange _]].
  { left. apply Hold. by rewrite <- Hdb. }
  destruct req as [part protocol host uniqueId new_id t_upload t_now
                  | req_id now | req_id | protocol host | req_id];
    simpl in Hchange; [| | done | done |].
  - destruct Hchange as (rec & Hid & Hzero & Hdb). rewrite Hdb in Hin.
    apply elem_of_app in Hin as [Hin|Hin%list_elem_of_singleton].
    + left. by apply Hold.
    + right. subst r'. by eexists _, _, _, _, _, _, _.
  - destruct Hchange as (k & r & Hfind & Hdb). rewrite Hdb in Hin.
    destruct (find_by_id_Some _ _ _ _ Hfind) as (Hk & _ & _).
    apply list_elem_of_lookup in Hin as [j Hj].
    apply list_lookup_insert_Some in Hj as [(-> & <- & _)|(Hne & Hj)].
    + left. exists r. split_and!.
      * by eapply list_elem_of_lookup_2.
      * by repeat split.
      * simpl. lia.
      * simpl. lia.
    + left. apply Hold. by eapply list_elem_of_lookup_2.
  - destruct Hchange as (k & r & _ & Hdb). rewrite Hdb in Hin.
    left. apply Hold. eapply elem_of_sublist; [done | apply sublist_delete].
Qed.

End Server.

(** ** Runs on the concrete store *)

(** C1. Uploading [a.txt] over [http://localhost:3000] under the id [abc]:
    [downloadUrl] ends in [/d/abc], but [directDownloadUrl] is
    [http://localhost:3000/download/abc], which does not end in
    [/api/download/abc], the only route that serves the blob. *)
Theorem upload_directDownloadUrl_misses_route :
  (post_api_upload "/app" sample_stringify (Some a_txt) "http" "localhost:3000" "abc"
     1000 1000 empty_world).1
  = Return (respond 200
              (JsonUploaded rec_abc "http://localhost:3000/d/abc"
                 "http://localhost:3000/download/abc"))
  ∧ endsWith "http://localhost:3000/d/abc" ("/d/" +:+ id rec_abc) = true
  ∧ endsWith "http://localhost:3000/download/abc" ("/api/download/" +:+ id rec_abc)
    = false.
Proof. split_and!; reflexivity. Qed.

(** C2. Visiting [/d/abc] while the record [abc] exists and is not
    expired: the counter is raised, then evaluating the page template
    throws [ReferenceError: formatBytes is not defined], which the handler
    logs before answering 500 with a plain text body instead of the page. *)
Theorem landing_page_answers_500 :
  find_by_id "abc" (fileDatabase world_two) = Some (1%nat, rec_abc)
  ∧ (expiresAt rec_abc <? 5000)%Z = false
  ∧ (get_d "/app" sample_stringify sample_toLocaleDateString "abc" 5000 world_two).1
    = Return (respond 500 (Text "Internal server error"))
  ∧ console
      (get_d "/app" sample_stringify sample_toLocaleDateString "abc" 5000 world_two).2
    = [("Download error:", ReferenceError "formatBytes")]
  ∧ fileDatabase
      (get_d "/app" sample_stringify sample_toLocaleDateString "abc" 5000 world_two).2
    = [rec_other; increment rec_abc].
Proof.
  split_and!; [reflexivity | reflexivity | ..];
    by rewrite (get_d_visit _ _ _ "abc" 5000 world_two 1 rec_abc).
Qed.

(** The asymmetry between the two routes, on one store at one instant: the
    landing page refuses the expired record, the direct download serves it
    and counts nothing. *)
Lemma expired_record_still_downloads :
  get_d "/app" sample_stringify sample_toLocaleDateString "abc" 700000000 world_two
  = (Return (respond 410 ExpiredPage), world_two)
  ∧ get_api_download "/app" "abc" world_two
    = (Return (mkResponse 200
                 [("Content-Type", HString "text/plain");
                  ("Content-Disposition",
                   HString ("attachment; filename=" +:+ dquote +:+ "a.txt" +:+ dquote));
                  ("Content-Length", HNumber 10)]
                 (FileStream "0123456789")),
       world_two).
Proof. split; reflexivity. Qed.

Lemma get_d_counts_each_visit_witness :
  find_by_id "abc" (fileDatabase world_two) = Some (1%nat, rec_abc)
  ∧ (expiresAt rec_abc <? 5000)%Z = false
  ∧ (expiresAt rec_abc <? 6000)%Z = false
  ∧ ∃ r2, fileDatabase
            (get_d "/app" sample_stringify sample_toLocaleDateString "abc" 6000
               (get_d "/app" sample_stringify sample_toLocaleDateString "abc" 5000
                  world_two).2).2 !! 1%nat
          = Some r2
          ∧ downloadCount r2 = 2%Z.
Proof.
  split_and!; [reflexivity | reflexivity | reflexivity |].
  destruct (get_d_counts_each_visit "/app" sample_stringify sample_toLocaleDateString
              "abc" 5000 6000 world_two 1 rec_abc eq_refl eq_refl eq_refl)
    as (_ & _ & _ & r2 & Hr2 & _ & Hfresh).
  exists r2. split; [exact Hr2 | apply Hfresh; reflexivity].
Defined.

Lemma get_d_expired_witness :
  find_by_id "abc" (fileDatabase world_two) = Some (1%nat, rec_abc)
  ∧ (expiresAt rec_abc < 700000000)%Z
  ∧ get_d "/app" sample_stringify sample_toLocaleDateString "abc" 700000000 world_two
    = (Return (respond 410 ExpiredPage), world_two).
Proof.
  split_and!; [reflexivity | reflexivity |].
  apply (get_d_expired "/app" sample_stringify sample_toLocaleDateString
           "abc" 700000000 world_two 1 rec_abc); reflexivity.
Defined.

Lemma get_api_download_streams_witness :
  find_by_id "abc" (fileDatabase world_two) = Some (1%nat, rec_abc)
  ∧ disk world_two !! "/app/uploads/xK3.txt" = Some "0123456789"
  ∧ get_api_download "/app" "abc" world_two
    = (Return (mkResponse 200 (download_headers rec_abc) (FileStream "0123456789")),
       world_two).
Proof.
  split_and!; [reflexivity | reflexivity |].
  apply (get_api_download_streams "/app" "abc" world_two 1 rec_abc "0123456789");
    reflexivity.
Defined.

Lemma unknown_id_or_missing_blob_is_404_witness :
  Forall (λ f, id f ≠ "nope") (fileDatabase world_two)
  ∧ (get_d "/app" sample_stringify sample_toLocaleDateString "nope" 5000 world_two
     = (Return (respond 404 NotFoundPage), world_two)
     ∧ get_api_download "/app" "nope" world_two
       = (Return (respond 404 (JsonError "File not found" None)), world_two))
  ∧ find_by_id "abc" (fileDatabase world_blob_lost) = Some (1%nat, rec_abc)
  ∧ disk world_blob_lost !! "/app/uploads/xK3.txt" = None
  ∧ get_api_download "/app" "abc" world_blob_lost
    = (Return (respond 404 (JsonError "File not found on server" None)), world_blob_lost).
Proof.
  assert (Hnone : Forall (λ f, id f ≠ "nope") (fileDatabase world_two))
    by (repeat constructor; discriminate).
  split; [exact Hnone |]. split; [| split_and!; [reflexivity | reflexivity |]].
  - exact (proj1 (unknown_id_or_missing_blob_is_404 "/app" sample_stringify
                    sample_toLocaleDateString "nope" 5000 world_two) Hnone).
  - exact (proj2 (unknown_id_or_missing_blob_is_404 "/app" sample_stringify
                    sample_toLocaleDateString "abc" 5000 world_blob_lost)
             1%nat rec_abc eq_refl eq_refl).
Defined.

Lemma post_api_upload_appends_witness :
  (Z.abs (1001 - 1000) < 60000)%Z
  ∧ ∃ fileInfo w',
      (post_api_upload "/app" sample_stringify (Some a_txt) "http" "localhost:3000"
         "abc" 1000 1001 world_two).2
      = w'
      ∧ fileDatabase w' = [rec_other; rec_abc; fileInfo]
      ∧ (Z.abs (expiresAt fileInfo - (uploadDate fileInfo + 7 * 24 * 60 * 60 * 1000))
         < 60000)%Z.
Proof.
  split; [reflexivity |].
  destruct (post_api_upload_appends "/app" sample_stringify a_txt "http"
              "localhost:3000" "abc" 1000 1001 world_two)
    as (fileInfo & u1 & u2 & w' & Hrun & Hdb & _ & _ & _ & _ & _ & _ & _ & Hmin & _).
  exists fileInfo, w'. split_and!.
  - by rewrite Hrun.
  - exact Hdb.
  - apply Hmin. reflexivity.
Defined.

Lemma load_fileDatabase_spec_witness :
  ((∅ : gmap string string) !! DATABASE_JSON "/app" = None
   ∧ load_fileDatabase "/app" sample_parse ∅ = JRecords [])
  ∧ (sample_parse "<html>" = Throw (SyntaxError "Unexpected token in JSON")
     ∧ load_fileDatabase "/app" sample_parse {["/app/database.json" := "<html>"]}
       = JRecords [])
  ∧ (sample_parse "[zzz,abc]" = Return (JRecords [rec_other; rec_abc])
     ∧ load_fileDatabase "/app" sample_parse {["/app/database.json" := "[zzz,abc]"]}
       = JRecords [rec_other; rec_abc]).
Proof.
  split; [| split].
  - split; [reflexivity |].
    exact (proj1 (load_fileDatabase_spec "/app" sample_parse ∅) eq_refl).
  - split; [reflexivity |].
    exact (proj1 (proj2 (load_fileDatabase_spec "/app" sample_parse
                           {["/app/database.json" := "<html>"]}))
             "<html>" (SyntaxError "Unexpected token in JSON") eq_refl eq_refl).
  - split; [reflexivity |].
    exact (proj2 (proj2 (proj2 (load_fileDatabase_spec "/app" sample_parse
                                  {["/app/database.json" := "[zzz,abc]"]})))
             "[zzz,abc]" [rec_other; rec_abc] eq_refl eq_refl).
Defined.

Lemma delete_api_files_spec_witness :
  (Forall (λ f, id f ≠ "nope") (fileDatabase world_two)
   ∧ delete_api_files "/app" sample_stringify "nope" world_two
     = (Return (respond 404 (JsonError "File not found" None)), world_two))
  ∧ (find_by_id "abc" (fileDatabase world_two) = Some (1%nat, rec_abc)
     ∧ NoDup (id <$> fileDatabase world_two)
     ∧ ∃ w',
         delete_api_files "/app" sample_stringify "abc" world_two
         = (Return (respond 200 JsonDeleted), w')
         ∧ fileDatabase w' = [rec_other]
         ∧ disk w' !! "/app/uploads/xK3.txt" = None
         ∧ get_api_download "/app" "abc" w'
           = (Return (respond 404 (JsonError "File not found" None)), w')).
Proof.
  assert (Hnone : Forall (λ f, id f ≠ "nope") (fileDatabase world_two))
    by (repeat constructor; discriminate).
  assert (Hnodup : NoDup (id <$> fileDatabase world_two))
    by (apply (bool_decide_unpack _); reflexivity).
  split.
  - split; [exact Hnone |].
    exact (proj1 (delete_api_files_spec "/app" sample_stringify
                    sample_toLocaleDateString "nope" world_two) Hnone).
  - split; [reflexivity |]. split; [exact Hnodup |].
    destruct (proj2 (delete_api_files_spec "/app" sample_stringify
                       sample_toLocaleDateString "abc" world_two)
                1%nat rec_abc eq_refl)
      as (w' & Hrun & Hdb & Hblob & _ & _ & Hafter).
    exists w'. split_and!; [exact Hrun | exact Hdb | exact Hblob |].
    exact (proj1 (Hafter Hnodup 0%Z)).
Defined.

Lemma get_d_ignores_missing_blob_witness :
  find_by_id "abc" (fileDatabase world_blob_lost) = Some (1%nat, rec_abc)
  ∧ (expiresAt rec_abc <? 5000)%Z = false
  ∧ disk world_blob_lost !! path_join (UPLOADS_DIR "/app") (storedName rec_abc) = None
  ∧ ∃ resp w' r',
      get_d "/app" sample_stringify sample_toLocaleDateString "abc" 5000 world_blob_lost
      = (Return resp, w')
      ∧ status resp ≠ 404%Z
      ∧ fileDatabase w' !! 1%nat = Some r'
      ∧ downloadCount r' = 1%Z
      ∧ disk w' !! DATABASE_JSON "/app" = Some (sample_stringify (fileDatabase w')).
Proof.
  split_and!; [reflexivity | reflexivity | reflexivity |].
  destruct (get_d_ignores_missing_blob "/app" sample_stringify
              sample_toLocaleDateString "abc" 5000 world_blob_lost 1 rec_abc
              eq_refl eq_refl eq_refl)
    as (resp & w' & r' & Hrun & Hstatus & Hr' & Hcount & _ & _ & _ & _ & _ & _ & _
        & Hsaved & _).
  exists resp, w', r'. split_and!; done.
Defined.

(** ** Runs of the further properties *)

Lemma get_api_files_lists_store_witness :
  fileDatabase world_two !! 1%nat = Some rec_abc
  ∧ ∃ files e,
      (get_api_files "http" "localhost:3000" world_two).1
      = Return (respond 200 (JsonFiles 2 files))
      ∧ files !! 1%nat = Some e
      ∧ l_id e = "abc"
      ∧ l_downloadCount e = 0%Z
      ∧ endsWith (l_downloadUrl e) "/d/abc" = true.
Proof.
  split; [reflexivity |].
  destruct (get_api_files_lists_store "http" "localhost:3000" world_two)
    as (files & Hrun & _ & Hentries).
  destruct (Hentries 1%nat rec_abc eq_refl)
    as (e & He & Hid & _ & _ & _ & Hcount & _ & Hurl).
  exists files, e. split_and!; try done. by rewrite Hrun.
Defined.

Lemma upload_then_download_roundtrip_witness :
  named_files sample_busboy_filename [part_a] = [part_a]
  ∧ part_fieldname part_a = "file"
  ∧ (Z.of_nat (String.length (part_content part_a)) < FILE_SIZE_LIMIT)%Z
  ∧ header_text (sample_busboy_mimetype (part_type part_a))
  ∧ ("abc" ∉ (id <$> fileDatabase empty_world))
  ∧ (get_api_download "/app" "abc"
       (post_api_upload_route "/app" sample_stringify sample_extname
          sample_busboy_filename sample_busboy_mimetype false [part_a]
          "http" "localhost:3000" "xK3" "abc" 1000 1000 empty_world).2).1
    = Return
        (mkResponse 200
           [("Content-Type", HString "text/plain");
            ("Content-Disposition",
             HString ("attachment; filename=" +:+ dquote +:+ "a.txt" +:+ dquote));
            ("Content-Length", HNumber 10)]
           (FileStream "0123456789")).
Proof.
  assert (H1 : named_files sample_busboy_filename [part_a] = [part_a])
    by reflexivity.
  assert (H2 : (Z.of_nat (String.length (part_content part_a)) < FILE_SIZE_LIMIT)%Z)
    by reflexivity.
  assert (H3 : "abc" ∉ (id <$> fileDatabase empty_world)) by apply not_elem_of_nil.
  assert (H4 : header_text (sample_busboy_mimetype (part_type part_a)))
    by (repeat constructor).
  split_and!; [exact H1 | reflexivity | exact H2 | exact H4 | exact H3 |].
  pose proof (upload_then_download_roundtrip "/app" sample_stringify sample_extname
                sample_busboy_filename sample_busboy_mimetype false
                [part_a] part_a "http" "localhost:3000" "xK3" "abc" 1000 1000
                empty_world H1 eq_refl H2 H4 H3) as Hround.
  cbv zeta in Hround. by rewrite Hround.
Defined.

Lemma upload_id_collision_is_shadowed_witness :
  find_by_id "abc" (fileDatabase world_two) = Some (1%nat, rec_abc)
  ∧ ∃ resp w',
      post_api_upload "/app" sample_stringify (Some a_txt) "http" "localhost:3000"
        "abc" 9000 9000 world_two
      = (Return resp, w')
      ∧ status resp = 200%Z
      ∧ length (fileDatabase w') = 3%nat
      ∧ find_by_id "abc" (fileDatabase w') = Some (1%nat, rec_abc).
Proof.
  split; [reflexivity |].
  destruct (upload_id_collision_is_shadowed "/app" sample_stringify a_txt "http"
              "localhost:3000" "abc" 9000 9000 world_two 1 rec_abc eq_refl)
    as (resp & w' & Hrun & Hstatus & Hlen & Hfind & _).
  by exists resp, w'.
Defined.

Lemma upload_without_file_witness :
  (Forall (λ p, reported_filename sample_busboy_filename p = EmptyString) [part_dot]
   ∧ post_api_upload_route "/app" sample_stringify sample_extname
       sample_busboy_filename sample_busboy_mimetype false [part_dot]
       "http" "localhost:3000" "xK3" "abc" 1000 1000 world_two
     = (Responded (respond 400 (JsonError "No file uploaded" None)), world_two))
  ∧ (named_files sample_busboy_filename [part_dot; part_stray; part_a]
     = [part_stray; part_a]
     ∧ part_fieldname part_stray ≠ "file"
     ∧ ∃ w',
         post_api_upload_route "/app" sample_stringify sample_extname
           sample_busboy_filename sample_busboy_mimetype false
           [part_dot; part_stray; part_a]
           "http" "localhost:3000" "xK3" "abc" 1000 1000 world_two
         = (Refused "LIMIT_UNEXPECTED_FILE", w')
         ∧ fileDatabase w' = fileDatabase world_two
         ∧ disk w' = disk world_two).
Proof.
  assert (Hnone : Forall (λ p, reported_filename sample_busboy_filename p = EmptyString)
                    [part_dot]) by (by repeat constructor).
  assert (Hstray : part_fieldname part_stray ≠ "file") by discriminate.
  split; split; [exact Hnone | | reflexivity | split; [exact Hstray |]].
  - exact (proj1 (upload_without_file "/app" sample_stringify sample_extname
                    sample_busboy_filename sample_busboy_mimetype false [part_dot]
                    "http" "localhost:3000" "xK3" "abc" 1000 1000 world_two) Hnone).
  - exact (proj2 (upload_without_file "/app" sample_stringify sample_extname
                    sample_busboy_filename sample_busboy_mimetype false
                    [part_dot; part_stray; part_a]
                    "http" "localhost:3000" "xK3" "abc" 1000 1000 world_two)
             part_stray [part_a] eq_refl Hstray).
Defined.

Lemma visits_count_witness :
  find_by_id "abc" (fileDatabase world_two) = Some (1%nat, rec_abc)
  ∧ Forall (λ now, (now ≤ expiresAt rec_abc)%Z) [2000; 3000; 4000]%Z
  ∧ ∃ r', fileDatabase
            (visits "/app" sample_stringify sample_toLocaleDateString "abc"
               [2000; 3000; 4000]%Z world_two) !! 1%nat
          = Some r'
          ∧ downloadCount r' = 3%Z.
Proof.
  assert (Hnows : Forall (λ now, (now ≤ expiresAt rec_abc)%Z) [2000; 3000; 4000]%Z)
    by (repeat constructor; vm_compute; discriminate).
  split_and!; [reflexivity | exact Hnows |].
  destruct (visits_count "/app" sample_stringify sample_toLocaleDateString "abc"
              [2000; 3000; 4000]%Z world_two 1 rec_abc eq_refl Hnows)
    as ((r' & Hr' & Hcount & _) & _ & _).
  exists r'. split; [exact Hr' | exact Hcount].
Defined.

Lemma get_d_expiry_is_strict_witness :
  find_by_id "abc" (fileDatabase world_two) = Some (1%nat, rec_abc)
  ∧ (∃ resp w' r',
       get_d "/app" sample_stringify sample_toLocaleDateString "abc" 604801000
         world_two
       = (Return resp, w')
       ∧ status resp ≠ 410%Z
       ∧ fileDatabase w' !! 1%nat = Some r'
       ∧ downloadCount r' = 1%Z)
  ∧ get_d "/app" sample_stringify sample_toLocaleDateString "abc" 604801001 world_two
    = (Return (respond 410 ExpiredPage), world_two).
Proof.
  split; [reflexivity |].
  exact (get_d_expiry_is_strict "/app" sample_stringify sample_toLocaleDateString
           "abc" world_two 1 rec_abc eq_refl).
Defined.

Lemma every_change_is_saved_witness :
  (fileDatabase
     (handle "/app" sample_stringify sample_toLocaleDateString sample_extname
          sample_busboy_filename sample_busboy_mimetype false
        (GetLanding "abc" 5000) world_two).2
   ≠ fileDatabase world_two
   ∧ synced "/app" sample_stringify
       (handle "/app" sample_stringify sample_toLocaleDateString sample_extname
          sample_busboy_filename sample_busboy_mimetype false
          (GetLanding "abc" 5000) world_two).2)
  ∧ (synced "/app" sample_stringify world_saved
     ∧ synced "/app" sample_stringify
         (run "/app" sample_stringify sample_toLocaleDateString sample_extname
          sample_busboy_filename sample_busboy_mimetype false
            [GetLanding "abc" 5000; DeleteFile "zzz"; GetDownload "abc"]
            world_saved)).
Proof.
  assert (Hchanged :
    fileDatabase
      (handle "/app" sample_stringify sample_toLocaleDateString sample_extname
          sample_busboy_filename sample_busboy_mimetype false
         (GetLanding "abc" 5000) world_two).2
    ≠ fileDatabase world_two) by (vm_compute; discriminate).
  assert (Hsaved : synced "/app" sample_stringify world_saved) by reflexivity.
  split; split; [exact Hchanged | | exact Hsaved |].
  - exact (proj1 (every_change_is_saved "/app" sample_stringify
                    sample_toLocaleDateString sample_extname
          sample_busboy_filename sample_busboy_mimetype false) _ _ Hchanged).
  - exact (proj2 (every_change_is_saved "/app" sample_stringify
                    sample_toLocaleDateString sample_extname
          sample_busboy_filename sample_busboy_mimetype false) _ _ Hsaved).
Defined.

Lemma restart_recovers_store_witness :
  consistent "/app" sample_parse_abc empty_world
  ∧ fileDatabase
      (run "/app" sample_stringify sample_toLocaleDateString sample_extname
          sample_busboy_filename sample_busboy_mimetype false
         [upload_a; GetDownload "abc"] empty_world)
    = [rec_abc]
  ∧ ∃ d,
      boot "/app" sample_parse_abc
        (disk (run "/app" sample_stringify sample_toLocaleDateString sample_extname
          sample_busboy_filename sample_busboy_mimetype false
                 [upload_a; GetDownload "abc"] empty_world))
      = Some (mkWorld [rec_abc] d [])
      ∧ d !! "/app/uploads/xK3.txt" = Some "0123456789".
Proof.
  assert (Hcons : consistent "/app" sample_parse_abc empty_world) by reflexivity.
  split_and!; [exact Hcons | reflexivity |].
  eexists. split.
  - exact (restart_recovers_store "/app" sample_stringify sample_parse_abc
             sample_toLocaleDateString sample_extname
          sample_busboy_filename sample_busboy_mimetype false
             [upload_a; GetDownload "abc"] empty_world Hcons eq_refl).
  - reflexivity.
Defined.

Lemma handle_keeps_ids_unique_witness :
  NoDup (id <$> fileDatabase world_two)
  ∧ upload_id_fresh
      (PostUpload [part_a] "http" "localhost:3000" "xK4" "new" 1000 1000) world_two
  ∧ NoDup (id <$> fileDatabase
             (handle "/app" sample_stringify sample_toLocaleDateString sample_extname
          sample_busboy_filename sample_busboy_mimetype false
                (PostUpload [part_a] "http" "localhost:3000" "xK4" "new" 1000 1000)
                world_two).2).
Proof.
  assert (Hnodup : NoDup (id <$> fileDatabase world_two))
    by (apply (bool_decide_unpack _); reflexivity).
  assert (Hfresh : upload_id_fresh
            (PostUpload [part_a] "http" "localhost:3000" "xK4" "new" 1000 1000)
            world_two)
    by (apply (bool_decide_unpack _); reflexivity).
  split_and!; [exact Hnodup | exact Hfresh |].
  exact (handle_keeps_ids_unique "/app" sample_stringify sample_toLocaleDateString
           sample_extname sample_busboy_filename sample_busboy_mimetype false
           _ world_two Hnodup Hfresh).
Defined.

Lemma delete_leaves_other_files_witness :
  find_by_id "abc" (fileDatabase world_two) = Some (1%nat, rec_abc)
  ∧ "zzz" ≠ "abc"
  ∧ snd <$> find_by_id "zzz" (fileDatabase world_two) = Some rec_other
  ∧ storedName rec_other ≠ storedName rec_abc
  ∧ (get_api_download "/app" "zzz"
       (delete_api_files "/app" sample_stringify "abc" world_two).2).1
    = (get_api_download "/app" "zzz" world_two).1.
Proof.
  assert (Hne : "zzz" ≠ "abc") by discriminate.
  assert (Hblob : storedName rec_other ≠ storedName rec_abc) by discriminate.
  split_and!; [reflexivity | exact Hne | reflexivity | exact Hblob |].
  destruct (delete_leaves_other_files "/app" sample_stringify
              sample_toLocaleDateString "abc" "zzz" 5000 world_two 1 rec_abc
              eq_refl Hne)
    as (_ & _ & Hdownload).
  apply Hdownload. intros r' Hr'. injection Hr' as <-. exact Hblob.
Defined.

Lemma content_disposition_is_header_safe_witness :
  Forall (λ c, is_unreserved c = true) (list_ascii_of_string (filename rec_abc))
  ∧ download_headers rec_abc !! 1%nat
    = Some ("Content-Disposition",
            HString ("attachment; filename=" +:+ dquote +:+ "a.txt" +:+ dquote)).
Proof.
  assert (Hplain : Forall (λ c, is_unreserved c = true)
                     (list_ascii_of_string (filename rec_abc)))
    by (repeat constructor).
  split; [exact Hplain |].
  destruct (content_disposition_is_header_safe rec_abc) as (name & Hheader & _ & Hsame).
  rewrite Hheader. by rewrite (Hsame Hplain).
Defined.

Lemma records_only_gain_counts_witness :
  increment rec_abc
  ∈ fileDatabase
      (handle "/app" sample_stringify sample_toLocaleDateString sample_extname
          sample_busboy_filename sample_busboy_mimetype false
         (GetLanding "abc" 5000) world_two).2
  ∧ ((∃ r, r ∈ fileDatabase world_two ∧ same_file r (increment rec_abc)
           ∧ (downloadCount r ≤ downloadCount (increment rec_abc)
              ≤ downloadCount r + 1)%Z)
     ∨ (∃ part protocol host uniqueId new_id t_upload t_now,
          GetLanding "abc" 5000
          = PostUpload part protocol host uniqueId new_id t_upload t_now
          ∧ id (increment rec_abc) = new_id
          ∧ downloadCount (increment rec_abc) = 0%Z)).
Proof.
  assert (Hin : increment rec_abc
                ∈ fileDatabase
                    (handle "/app" sample_stringify sample_toLocaleDateString
                       sample_extname sample_busboy_filename
                       sample_busboy_mimetype false
                       (GetLanding "abc" 5000) world_two).2)
    by (apply list_elem_of_lookup; exists 1%nat; reflexivity).
  split; [exact Hin |].
  exact (records_only_gain_counts "/app" sample_stringify sample_toLocaleDateString
           sample_extname sample_busboy_filename sample_busboy_mimetype false
           (GetLanding "abc" 5000) world_two (increment rec_abc) Hin).
Defined.
